(** * BikeRide: a shallow embedding of the page handlers

    The repository is a React storefront whose pages bind forms to a hosted
    document store.  Each page is embedded as a module: the [useState] cells of
    a component become a record, an event handler becomes a computation in a
    small state-and-exception monad over that record and the environment
    (collections of the store, toasts, navigation, console, clock).

    Modelling choices, stated once:
    - a JavaScript [number] holding a money amount, a duration or a timestamp
      is an integer ([Z]); double arithmetic is exact on these as long as the
      values stay below 2^53;
    - a [Date] is its millisecond timestamp; local calendar fields are read in
      a zone without daylight-saving shifts, so [setHours (getHours () + n)]
      and [setDate (getDate () + n)] move the timestamp by [n] hours and [n]
      days;
    - strings are byte strings; [toLowerCase] folds the ASCII letters;
    - a number input left empty ([NaN]) is outside the model; timers and the
      order in which concurrent lookups answer are not represented: awaited
      calls run one after the other, and a list reload started without
      [await] runs at the point where it is started;
    - the hosted store is outside the repository: [create] appends the record
      it is given, [list] filters by the [where] clause, [update] overwrites the
      named fields, and each call either does that or throws, as decided by the
      environment's [outage] plan. *)

From Stdlib Require Import ZArith List String Ascii Lia Bool.
From stdpp Require Import base gmap strings list pretty.

Open Scope string_scope.
Open Scope list_scope.
Open Scope Z_scope.

(** ** Values that may be absent *)

(** TypeScript's [x?: T] read back from the store: absent, [null] or a value. *)
Inductive Nullable (A : Type) : Type :=
| undefined
| null
| present (a : A).
Global Arguments undefined {A}.
Global Arguments null {A}.
Global Arguments present {A} a.

(** [xs[0] || null] for a list of objects (every object is truthy). *)
Definition first_or_null {A : Type} (xs : list A) : Nullable A :=
  match xs with
  | [] => null
  | x :: _ => present x
  end.

(** [s || d] for strings: the empty string is falsy. *)
Definition str_or (s d : string) : string :=
  if decide (s = "") then d else s.

(** ** Records of the store *)

Module Store.

Record AdminUser := mkAdminUser {
  user_id : string;
  role : string
}.

Record User := mkUser {
  uid : string;
  email : string;
  displayName : option string
}.

Record Bike := mkBike {
  bike_id : string;
  name : string;
  type : string;
  description : string;
  hourlyRate : Z;
  dailyRate : Z;
  imageUrl : string;
  isAvailable : Z
}.

Record Booking := mkBooking {
  id : string;
  userId : string;
  bikeId : string;
  bookingType : string;
  startDate : string;
  endDate : string;
  totalAmount : Z;
  status : string;
  customerName : string;
  customerEmail : string;
  customerPhone : string;
  notes : string;
  createdAt : string;
  bikeNumber : option string;
  deliveryStatus : option string;
  returnStatus : option string;
  deliveredAt : option string;
  returnedAt : option string;
  assignedByAdmin : option string;
  updatedAt : option string
}.

End Store.
Export Store.

(** ** Toasts, remote calls and the environment *)

Inductive Variant := plain | destructive.

Record Toast := mkToast {
  title : string;
  toast_description : string;
  variant : Variant
}.

(** A call sent to the hosted store.  An update carries the object of fields
    to overwrite, a JavaScript object used as a map from field names. *)
Inductive Call :=
| AdminList (filter_user : option string)
| AdminCreate (a : AdminUser)
| BikeList (filter_id : option string)
| BookingList (filter_user : option string)
| BookingCreate (b : Booking)
| BookingUpdate (target : string) (fields : gmap string string).

Module Host.

Record Env := mkEnv {
  admin_users : list AdminUser;
  bikes : list Bike;
  bookings : list Booking;
  toasts : list Toast;          (* oldest first *)
  visited : list string;        (* routes passed to [navigate], oldest first *)
  console : list string;        (* console lines, oldest first *)
  calls : list Call;            (* remote calls issued, oldest first *)
  outage : nat -> bool;         (* does the n-th remote call throw? *)
  now : Z;                      (* [Date.now ()] *)
  entropy : string              (* [Math.random ().toString (36).substr (2, 9)] *)
}.

End Host.
Export Host.

Definition with_admin_users (v : list AdminUser) (e : Env) : Env :=
  mkEnv v (bikes e) (bookings e) (toasts e) (visited e) (console e) (calls e)
        (outage e) (now e) (entropy e).
Definition with_bookings (v : list Booking) (e : Env) : Env :=
  mkEnv (admin_users e) (bikes e) v (toasts e) (visited e) (console e) (calls e)
        (outage e) (now e) (entropy e).
Definition with_toasts (v : list Toast) (e : Env) : Env :=
  mkEnv (admin_users e) (bikes e) (bookings e) v (visited e) (console e) (calls e)
        (outage e) (now e) (entropy e).
Definition with_visited (v : list string) (e : Env) : Env :=
  mkEnv (admin_users e) (bikes e) (bookings e) (toasts e) v (console e) (calls e)
        (outage e) (now e) (entropy e).
Definition with_console (v : list string) (e : Env) : Env :=
  mkEnv (admin_users e) (bikes e) (bookings e) (toasts e) (visited e) v (calls e)
        (outage e) (now e) (entropy e).
Definition with_calls (v : list Call) (e : Env) : Env :=
  mkEnv (admin_users e) (bikes e) (bookings e) (toasts e) (visited e) (console e) v
        (outage e) (now e) (entropy e).

(** ** The handler monad: component state, environment, exceptions *)

Inductive Outcome (A : Type) : Type :=
| Returned (a : A)
| Thrown (err : string).
Global Arguments Returned {A} a.
Global Arguments Thrown {A} err.

Record World (P : Type) := mkWorld {
  page : P;
  env : Env
}.
Global Arguments mkWorld {P} page env.
Global Arguments page {P} w.
Global Arguments env {P} w.

Definition Eff (P A : Type) : Type := World P -> Outcome A * World P.

Definition ret {P A} (a : A) : Eff P A := fun w => (Returned a, w).

Definition bind {P A B} (m : Eff P A) (k : A -> Eff P B) : Eff P B :=
  fun w =>
    match m w with
    | (Returned a, w') => k a w'
    | (Thrown err, w') => (Thrown err, w')
    end.

Definition throw {P A} (err : string) : Eff P A := fun w => (Thrown err, w).

(** [try { body } catch (error) { handler } finally { cleanup }] *)
Definition try_catch_finally {P} (body : Eff P unit)
    (handler : string -> Eff P unit) (cleanup : Eff P unit) : Eff P unit :=
  fun w =>
    match body w with
    | (Returned _, w') => cleanup w'
    | (Thrown err, w') =>
        match handler err w' with
        | (Returned _, w'') => cleanup w''
        | (Thrown err', w'') =>
            match cleanup w'' with
            | (Returned _, w3) => (Thrown err', w3)
            | (Thrown err'', w3) => (Thrown err'', w3)
            end
        end
    end.

(** stdpp's monad classes give the handlers their [x ← m; k] notation. *)
Global Instance eff_ret {P} : MRet (Eff P) := fun A => @ret P A.
Global Instance eff_bind {P} : MBind (Eff P) := fun A B k m => @bind P A B m k.

Definition get_page {P} : Eff P P := fun w => (Returned (page w), w).
Definition set_page {P} (f : P -> P) : Eff P unit :=
  fun w => (Returned tt, mkWorld (f (page w)) (env w)).
Definition get_env {P} : Eff P Env := fun w => (Returned (env w), w).
Definition set_env {P} (f : Env -> Env) : Eff P unit :=
  fun w => (Returned tt, mkWorld (page w) (f (env w))).

Definition toast {P} (t : Toast) : Eff P unit :=
  set_env (fun e => with_toasts (toasts e ++ [t]) e).
Definition navigate {P} (path : string) : Eff P unit :=
  set_env (fun e => with_visited (visited e ++ [path]) e).
Definition console_error {P} (line : string) : Eff P unit :=
  set_env (fun e => with_console (console e ++ [line]) e).
Definition console_log {P} (line : string) : Eff P unit :=
  set_env (fun e => with_console (console e ++ [line]) e).

(** The world a handler leaves behind, whether it returned or threw. *)
Definition exec {P A} (m : Eff P A) (w : World P) : World P := snd (m w).

(** A remote call: it is recorded, then the outage plan decides whether it
    throws (leaving the store as it was) or takes effect. *)
Definition remote {P A} (c : Call) (effect : Env -> A * Env) : Eff P A :=
  fun w =>
    let e := env w in
    let e1 := with_calls (calls e ++ [c]) e in
    if outage e (length (calls e))
    then (Thrown "network", mkWorld (page w) e1)
    else let '(a, e2) := effect e1 in (Returned a, mkWorld (page w) e2).

(** ** Proof support *)

Lemma snoc_not_self {A} (l : list A) (x : A) : l ++ [x] <> l.
Proof.
  intros H. apply (f_equal (@length A)) in H.
  rewrite length_app in H. simpl in H. lia.
Qed.

Ltac run_handler :=
  unfold exec, mbind, eff_bind, bind, try_catch_finally, remote,
    get_page, set_page, get_env, set_env, toast, navigate, console_error, console_log;
  simpl.

(** ** Dates *)

(** A [Date] object: the invalid date ([NaN] time value) or an instant in
    milliseconds since the epoch. *)
Inductive JsDate :=
| InvalidDate
| Instant (ms : Z).

(** What the pages ask of the JavaScript runtime about dates.  Parsing and the
    calendar fields depend on the engine and on the zone of the browser, so the
    handlers are written against this interface. *)
Class DateRuntime := {
  Date_parse : string -> JsDate;       (* [new Date (s)] *)
  toISOString : Z -> string;           (* of a valid date *)
  toTimeString : Z -> string;
  getMonth : Z -> Z;
  getFullYear : Z -> Z
}.

Definition msPerHour : Z := 3600000.
Definition msPerDay : Z := 86400000.

(** [d.setHours (d.getHours () + n)] *)
Definition addHours (d : JsDate) (n : Z) : JsDate :=
  match d with
  | InvalidDate => InvalidDate
  | Instant t => Instant (t + n * msPerHour)
  end.

(** [d.setDate (d.getDate () + n)] *)
Definition addDays (d : JsDate) (n : Z) : JsDate :=
  match d with
  | InvalidDate => InvalidDate
  | Instant t => Instant (t + n * msPerDay)
  end.

(** [d.toISOString ()] throws a [RangeError] on the invalid date. *)
Definition toISOString_or_throw `{DateRuntime} {P} (d : JsDate) : Eff P string :=
  match d with
  | InvalidDate => throw "RangeError: Invalid time value"
  | Instant t => ret (toISOString t)
  end.



(** *** A runtime in the UTC zone

    The proleptic Gregorian calendar by day counts, used to run the handlers
    on concrete inputs. *)

Definition days_from_civil (y m d : Z) : Z :=
  let y' := if m <=? 2 then y - 1 else y in
  let era := y' / 400 in
  let yoe := y' - era * 400 in
  let mp := if 2 <? m then m - 3 else m + 9 in
  let doy := (153 * mp + 2) / 5 + d - 1 in
  let doe := yoe * 365 + yoe / 4 - yoe / 100 + doy in
  era * 146097 + doe - 719468.

Definition civil_from_days (z : Z) : Z * Z * Z :=
  let z' := z + 719468 in
  let era := z' / 146097 in
  let doe := z' - era * 146097 in
  let yoe := (doe - doe / 1460 + doe / 36524 - doe / 146096) / 365 in
  let doy := doe - (365 * yoe + yoe / 4 - yoe / 100) in
  let mp := (5 * doy + 2) / 153 in
  let d := doy - (153 * mp + 2) / 5 + 1 in
  let m := if mp <? 10 then mp + 3 else mp - 9 in
  let y := yoe + era * 400 in
  (if m <=? 2 then y + 1 else y, m, d).

Definition digit_value (a : ascii) : option Z :=
  let n := Z.of_nat (nat_of_ascii a) in
  if (48 <=? n) && (n <=? 57) then Some (n - 48) else None.

Fixpoint digits_value_from (acc : Z) (s : string) : option Z :=
  match s with
  | EmptyString => Some acc
  | String a rest =>
      match digit_value a with
      | Some v => digits_value_from (acc * 10 + v) rest
      | None => None
      end
  end.

Definition digits_value (s : string) : option Z :=
  match s with
  | EmptyString => None
  | _ => digits_value_from 0 s
  end.

Definition pad (width : nat) (n : Z) : string :=
  let s := pretty n in
  String.concat "" (List.repeat "0" (width - String.length s)) +:+ s.

(** The [:SS.mmmZ] tail of an ISO stamp, in milliseconds; nothing is zero. *)
Definition utc_tail (s : string) : option Z :=
  if bool_decide (s = "") then Some 0
  else
    match digits_value (String.substring 1 2 s),
          digits_value (String.substring 4 3 s) with
    | Some ss, Some ms =>
        if bool_decide (String.length s = 8%nat)
           && bool_decide (String.substring 0 1 s = ":")
           && bool_decide (String.substring 3 1 s = ".")
           && bool_decide (String.substring 7 1 s = "Z")
           && (ss <=? 59)
        then Some (ss * 1000 + ms)
        else None
    | _, _ => None
    end.

(** Reads [YYYY-MM-DDTHH:MM], with or without the [:SS.mmmZ] tail, as a UTC
    instant. *)
Definition utc_parse (s : string) : JsDate :=
  match digits_value (String.substring 0 4 s),
        digits_value (String.substring 5 2 s),
        digits_value (String.substring 8 2 s),
        digits_value (String.substring 11 2 s),
        digits_value (String.substring 14 2 s),
        utc_tail (String.substring 16 (String.length s - 16) s) with
  | Some y, Some m, Some d, Some hh, Some mm, Some tail =>
      if bool_decide (String.substring 4 1 s = "-")
         && bool_decide (String.substring 7 1 s = "-")
         && bool_decide (String.substring 10 1 s = "T")
         && bool_decide (String.substring 13 1 s = ":")
         && (1 <=? m) && (m <=? 12) && (1 <=? d) && (d <=? 31)
         && (hh <=? 23) && (mm <=? 59)
      then Instant (days_from_civil y m d * msPerDay + hh * msPerHour
                    + mm * 60000 + tail)
      else InvalidDate
  | _, _, _, _, _, _ => InvalidDate
  end.

Definition utc_iso (t : Z) : string :=
  let '(y, m, d) := civil_from_days (t / msPerDay) in
  let r := t mod msPerDay in
  pad 4 y +:+ "-" +:+ pad 2 m +:+ "-" +:+ pad 2 d +:+ "T"
    +:+ pad 2 (r / msPerHour) +:+ ":" +:+ pad 2 (r mod msPerHour / 60000) +:+ ":"
    +:+ pad 2 (r mod 60000 / 1000) +:+ "." +:+ pad 3 (r mod 1000) +:+ "Z".

Definition utc_time (t : Z) : string :=
  let r := t mod msPerDay in
  pad 2 (r / msPerHour) +:+ ":" +:+ pad 2 (r mod msPerHour / 60000) +:+ ":"
    +:+ pad 2 (r mod 60000 / 1000) +:+ " GMT+0000 (Coordinated Universal Time)".

Definition utc_runtime : DateRuntime := {|
  Date_parse := utc_parse;
  toISOString := utc_iso;
  toTimeString := utc_time;
  getMonth := fun t => snd (fst (civil_from_days (t / msPerDay))) - 1;
  getFullYear := fun t => fst (fst (civil_from_days (t / msPerDay)))
|}.

Example utc_parse_may_day :
  utc_parse "2024-05-01T10:00" = Instant 1714557600000.
Proof. vm_compute. reflexivity. Qed.

Example utc_parse_stamp :
  utc_parse "2024-05-01T10:00:07.250Z" = Instant 1714557607250
  /\ utc_parse "yesterday" = InvalidDate.
Proof. vm_compute. split; reflexivity. Qed.

Example utc_iso_may_day :
  utc_iso 1714557600000 = "2024-05-01T10:00:00.000Z".
Proof. vm_compute. reflexivity. Qed.

Example utc_fields_may_day :
  @getMonth utc_runtime 1714557600000 = 4
  /\ @getFullYear utc_runtime 1714557600000 = 2024.
Proof. vm_compute. split; reflexivity. Qed.

Module db.

Definition admin_where (f : option string) (a : AdminUser) : bool :=
  match f with
  | None => true
  | Some u => bool_decide (user_id a = u)
  end.

Definition admin_users_list {P} (f : option string) : Eff P (list AdminUser) :=
  remote (AdminList f) (fun e => (List.filter (admin_where f) (admin_users e), e)).

Definition admin_users_create {P} (a : AdminUser) : Eff P unit :=
  remote (AdminCreate a) (fun e => (tt, with_admin_users (admin_users e ++ [a]) e)).

Definition bike_where (f : option string) (b : Bike) : bool :=
  match f with
  | None => true
  | Some i => bool_decide (bike_id b = i)
  end.

Definition bikes_list {P} (f : option string) : Eff P (list Bike) :=
  remote (BikeList f) (fun e => (List.filter (bike_where f) (bikes e), e)).

(** The store stamps [createdAt] on the record it is sent. *)
Definition stamp `{DateRuntime} (e : Env) (b : Booking) : Booking :=
  mkBooking (id b) (userId b) (bikeId b) (bookingType b) (startDate b) (endDate b)
    (totalAmount b) (status b) (customerName b) (customerEmail b) (customerPhone b)
    (notes b) (toISOString (now e)) (bikeNumber b) (deliveryStatus b) (returnStatus b)
    (deliveredAt b) (returnedAt b) (assignedByAdmin b) (updatedAt b).

Definition bookings_create `{DateRuntime} {P} (b : Booking) : Eff P unit :=
  remote (BookingCreate b)
    (fun e => (tt, with_bookings (bookings e ++ [stamp e b]) e)).

Definition booking_where (f : option string) (b : Booking) : bool :=
  match f with
  | None => true
  | Some u => bool_decide (userId b = u)
  end.

(** [orderBy: { createdAt: 'desc' }]: newest first, by the text of the stamp. *)
Fixpoint insert_desc (b : Booking) (l : list Booking) : list Booking :=
  match l with
  | [] => [b]
  | x :: rest =>
      if String.ltb (createdAt x) (createdAt b) then b :: l
      else x :: insert_desc b rest
  end.

Definition orderBy_createdAt_desc (l : list Booking) : list Booking :=
  List.fold_right insert_desc [] l.

Definition bookings_list {P} (f : option string) (newest_first : bool)
    : Eff P (list Booking) :=
  remote (BookingList f)
    (fun e =>
       let found := List.filter (booking_where f) (bookings e) in
       (if newest_first then orderBy_createdAt_desc found else found, e)).

(** Overwrites the fields named in the update object; the amount is the one
    field no page ever sends, the others are all text. *)
Definition apply_fields (fields : gmap string string) (b : Booking) : Booking :=
  let text (key : string) (old : string) := default old (fields !! key) in
  let opt (key : string) (old : option string) :=
    match fields !! key with
    | Some v => Some v
    | None => old
    end in
  mkBooking (text "id" (id b)) (text "userId" (userId b)) (text "bikeId" (bikeId b))
    (text "bookingType" (bookingType b)) (text "startDate" (startDate b))
    (text "endDate" (endDate b)) (totalAmount b) (text "status" (status b))
    (text "customerName" (customerName b)) (text "customerEmail" (customerEmail b))
    (text "customerPhone" (customerPhone b)) (text "notes" (notes b))
    (text "createdAt" (createdAt b)) (opt "bikeNumber" (bikeNumber b))
    (opt "deliveryStatus" (deliveryStatus b)) (opt "returnStatus" (returnStatus b))
    (opt "deliveredAt" (deliveredAt b)) (opt "returnedAt" (returnedAt b))
    (opt "assignedByAdmin" (assignedByAdmin b)) (opt "updatedAt" (updatedAt b)).

Definition update_in (target : string) (fields : gmap string string)
    (l : list Booking) : list Booking :=
  List.map (fun b => if decide (id b = target) then apply_fields fields b else b) l.

Definition bookings_update {P} (target : string) (fields : gmap string string)
    : Eff P unit :=
  remote (BookingUpdate target fields)
    (fun e => (tt, with_bookings (update_in target fields (bookings e)) e)).

End db.

(** ** Sample data for running the handlers *)

Definition demo_env : Env :=
  mkEnv [mkAdminUser "u-alice" "admin"] [] [] [] [] [] [] (fun _ => false) 0 "k3x9q2m1z".

Definition bob : User := mkUser "u-bob" "bob@example.org" None.

(** ** AdminSetup.tsx *)

Module AdminSetup.

Record State := mkState {
  adminCode : string;
  isLoading : bool;
  hasAdmins : bool;
  checkingAdmins : bool
}.

Definition initial : State := mkState "" false false true.

Definition setIsLoading (v : bool) (s : State) : State :=
  mkState (adminCode s) v (hasAdmins s) (checkingAdmins s).
Definition setHasAdmins (v : bool) (s : State) : State :=
  mkState (adminCode s) (isLoading s) v (checkingAdmins s).
Definition setCheckingAdmins (v : bool) (s : State) : State :=
  mkState (adminCode s) (isLoading s) (hasAdmins s) v.
Definition setAdminCode (v : string) (s : State) : State :=
  mkState v (isLoading s) (hasAdmins s) (checkingAdmins s).

Definition ADMIN_SETUP_CODE : string := "BIKERIDE2024".

Definition invalid_code_toast : Toast :=
  mkToast "Invalid Code" "Please enter the correct admin setup code." destructive.
Definition granted_toast : Toast :=
  mkToast "Admin Access Granted!" "You now have admin privileges." plain.
Definition setup_failed_toast : Toast :=
  mkToast "Setup Failed" "Failed to set up admin access. Please try again." destructive.
Definition already_admin_toast : Toast :=
  mkToast "Already Admin" "You already have admin privileges." plain.
Definition access_denied_toast : Toast :=
  mkToast "Access Denied" "Unable to grant admin access. Contact existing admin." destructive.

Definition checkExistingAdmins : Eff State unit :=
  try_catch_finally
    (admins ← db.admin_users_list None;
     set_page (setHasAdmins (bool_decide (0 < length admins)%nat)))
    (fun _ => console_error "Error checking admins:")
    (set_page (setCheckingAdmins false)).

Definition handleSetupAdmin (user : User) : Eff State unit :=
  s ← get_page;
  if bool_decide (adminCode s <> ADMIN_SETUP_CODE) then
    toast invalid_code_toast
  else
    set_page (setIsLoading true);;
    try_catch_finally
      (db.admin_users_create (mkAdminUser (uid user) "admin");;
       toast granted_toast;;
       navigate "/admin")
      (fun _ =>
         console_error "Error setting up admin:";;
         toast setup_failed_toast)
      (set_page (setIsLoading false)).

Definition handleBecomeAdmin (user : User) : Eff State unit :=
  set_page (setIsLoading true);;
  try_catch_finally
    (existingAdmin ← db.admin_users_list (Some (uid user));
     if bool_decide (0 < length existingAdmin)%nat then
       toast already_admin_toast;;
       navigate "/admin"
     else
       db.admin_users_create (mkAdminUser (uid user) "admin");;
       toast granted_toast;;
       navigate "/admin")
    (fun _ =>
       console_error "Error becoming admin:";;
       toast access_denied_toast)
    (set_page (setIsLoading false)).

(** What the card offers once the admin check has finished. *)
Inductive Panel := Spinner | SetupForm | RequestAccessButton.

Definition render (s : State) : Panel :=
  if checkingAdmins s then Spinner
  else if negb (hasAdmins s) then SetupForm
  else RequestAccessButton.

(** Clicking what the card offers. *)
Definition click (user : User) : Eff State unit :=
  s ← get_page;
  match render s with
  | Spinner => ret tt
  | SetupForm => handleSetupAdmin user
  | RequestAccessButton => handleBecomeAdmin user
  end.

(** *** Properties of the admin card *)

(** C1. The first-admin form issues the [admin_users] create call for the
    current user exactly when the entered code equals [ADMIN_SETUP_CODE]; when
    the store takes the call the record is appended and the page moves to
    [/admin]; for every other code nothing is inserted, nothing is sent, no
    navigation happens and the invalid-code toast is shown. *)
Theorem setup_code_gate (user : User) (w : World State) :
  let w' := exec (handleSetupAdmin user) w in
  let rec := mkAdminUser (uid user) "admin" in
  (calls (env w') = calls (env w) ++ [AdminCreate rec]
     <-> adminCode (page w) = ADMIN_SETUP_CODE)
  /\ (adminCode (page w) = ADMIN_SETUP_CODE ->
      outage (env w) (length (calls (env w))) = false ->
      admin_users (env w') = admin_users (env w) ++ [rec]
      /\ visited (env w') = visited (env w) ++ ["/admin"]
      /\ toasts (env w') = toasts (env w) ++ [granted_toast])
  /\ (adminCode (page w) <> ADMIN_SETUP_CODE ->
      admin_users (env w') = admin_users (env w)
      /\ calls (env w') = calls (env w)
      /\ visited (env w') = visited (env w)
      /\ toasts (env w') = toasts (env w) ++ [invalid_code_toast]).
Proof.
  intros w' rec. subst w' rec.
  unfold handleSetupAdmin, db.admin_users_create. run_handler.
  destruct (decide (adminCode (page w) = ADMIN_SETUP_CODE)) as [Heq | Hne].
  - rewrite bool_decide_eq_false_2 by (intros H; apply H, Heq).
    simpl. split; [ | split ].
    + split; [ intros _; exact Heq | intros _ ].
      destruct (outage (env w) (length (calls (env w)))); reflexivity.
    + intros _ Hup. rewrite Hup. simpl. auto.
    + intros Hne. contradiction.
  - rewrite bool_decide_eq_true_2 by exact Hne.
    simpl. split; [ | split ].
    + split; [ intros H | intros H; contradiction ].
      symmetry in H. apply snoc_not_self in H. contradiction.
    + intros Heq. contradiction.
    + intros _. auto.
Qed.

(** Mounting the card and then clicking what it offers. *)
Definition mount_and_click (user : User) (code : string) (e : Env) : World State :=
  exec (click user) (exec checkExistingAdmins (mkWorld (setAdminCode code initial) e)).

Lemma filter_admin_all (l : list AdminUser) :
  List.filter (db.admin_where None) l = l.
Proof.
  induction l as [ | a l IH ]; simpl; [ reflexivity | now rewrite IH ].
Qed.

Lemma checkExistingAdmins_up (w : World State) :
  outage (env w) (length (calls (env w))) = false ->
  checkExistingAdmins w =
    (Returned tt,
     mkWorld
       (setCheckingAdmins false
          (setHasAdmins (bool_decide (0 < length (admin_users (env w)))%nat) (page w)))
       (with_calls (calls (env w) ++ [AdminList None]) (env w))).
Proof.
  intros Hup. unfold checkExistingAdmins, db.admin_users_list. run_handler.
  rewrite Hup. simpl. now rewrite filter_admin_all.
Qed.

(** The environment the request button leaves when the store answers. *)
Definition after_request (user : User) (e : Env) : Env :=
  let e1 := with_calls (calls e ++ [AdminList (Some (uid user))]) e in
  match List.filter (db.admin_where (Some (uid user))) (admin_users e) with
  | [] =>
      let rec := mkAdminUser (uid user) "admin" in
      let e2 := with_admin_users (admin_users e ++ [rec])
                  (with_calls (calls e1 ++ [AdminCreate rec]) e1) in
      with_visited (visited e ++ ["/admin"])
        (with_toasts (toasts e ++ [granted_toast]) e2)
  | _ :: _ =>
      with_visited (visited e ++ ["/admin"])
        (with_toasts (toasts e ++ [already_admin_toast]) e1)
  end.

Lemma handleBecomeAdmin_up (user : User) (w : World State) :
  outage (env w) (length (calls (env w))) = false ->
  outage (env w) (S (length (calls (env w)))) = false ->
  handleBecomeAdmin user w =
    (Returned tt,
     mkWorld (setIsLoading false (setIsLoading true (page w)))
             (after_request user (env w))).
Proof.
  intros H0 H1.
  unfold handleBecomeAdmin, db.admin_users_list, db.admin_users_create, after_request.
  run_handler. rewrite H0. simpl.
  destruct (List.filter (db.admin_where (Some (uid user))) (admin_users (env w)))
    as [ | a rest ]; simpl.
  - rewrite length_app, Nat.add_1_r, H1. reflexivity.
  - reflexivity.
Qed.

(** C9. Once an admin record exists the card offers the request button, and
    pressing it inserts an [admin] record for the signed-in user unless one is
    already there; the setup code typed into the form plays no part. *)
Theorem request_access_grants_admin (user : User) (e : Env) (code : string) :
  admin_users e <> [] ->
  (forall k, outage e k = false) ->
  let mounted := exec checkExistingAdmins (mkWorld (setAdminCode code initial) e) in
  let w' := mount_and_click user code e in
  let mine := List.filter (db.admin_where (Some (uid user))) (admin_users e) in
  render (page mounted) = RequestAccessButton
  /\ (mine = [] ->
      admin_users (env w') = admin_users e ++ [mkAdminUser (uid user) "admin"]
      /\ toasts (env w') = toasts e ++ [granted_toast]
      /\ visited (env w') = visited e ++ ["/admin"])
  /\ (mine <> [] ->
      admin_users (env w') = admin_users e
      /\ toasts (env w') = toasts e ++ [already_admin_toast]
      /\ visited (env w') = visited e ++ ["/admin"])
  /\ (forall code', env (mount_and_click user code' e) = env w').
Proof.
  intros Hsome Hup mounted w' mine.
  assert (Hmount : forall c,
    exec checkExistingAdmins (mkWorld (setAdminCode c initial) e) =
    mkWorld (mkState c false true false)
            (with_calls (calls e ++ [AdminList None]) e)).
  { intros c. unfold exec. rewrite checkExistingAdmins_up by apply Hup.
    simpl. destruct (admin_users e); [ contradiction | ].
    simpl length. rewrite bool_decide_eq_true_2 by lia. reflexivity. }
  assert (Hclick : forall c,
    mount_and_click user c e =
    mkWorld (mkState c false true false)
            (after_request user (with_calls (calls e ++ [AdminList None]) e))).
  { intros c. unfold mount_and_click. rewrite Hmount.
    unfold exec, click. run_handler.
    rewrite handleBecomeAdmin_up by apply Hup. reflexivity. }
  subst mounted w' mine. rewrite Hmount.
  split; [ reflexivity | ].
  repeat split; try (rewrite Hclick; unfold after_request; simpl).
  - destruct (List.filter _ (admin_users e)); [ reflexivity | discriminate ].
  - destruct (List.filter _ (admin_users e)); [ reflexivity | discriminate ].
  - destruct (List.filter _ (admin_users e)); [ reflexivity | discriminate ].
  - destruct (List.filter _ (admin_users e)); [ contradiction | reflexivity ].
  - destruct (List.filter _ (admin_users e)); [ contradiction | reflexivity ].
  - destruct (List.filter _ (admin_users e)); [ contradiction | reflexivity ].
  - intros code'. rewrite !Hclick. reflexivity.
Qed.

Lemma request_access_grants_admin_witness :
  admin_users (env (mount_and_click bob "wrong code" demo_env)) =
    [mkAdminUser "u-alice" "admin"; mkAdminUser "u-bob" "admin"]
  /\ visited (env (mount_and_click bob "wrong code" demo_env)) = ["/admin"].
Proof.
  assert (Hsome : admin_users demo_env <> []) by discriminate.
  assert (Hup : forall k, outage demo_env k = false) by reflexivity.
  destruct (request_access_grants_admin bob demo_env "wrong code" Hsome Hup)
    as (_ & Hnew & _ & _).
  destruct (Hnew eq_refl) as (Hrec & _ & Hnav).
  split; [ exact Hrec | exact Hnav ].
Defined.
End AdminSetup.


(** ** BookingPage.tsx *)

Module BookingPage.

Inductive BookingType := instant | pre_reservation.
Inductive DurationType := hours | days.

Definition bookingType_text (t : BookingType) : string :=
  match t with
  | instant => "instant"
  | pre_reservation => "pre_reservation"
  end.

Record State := mkState {
  bike : option Bike;
  loading : bool;
  submitting : bool;
  user : option User;
  bookingType : BookingType;
  startDate : string;
  startTime : string;
  duration : Z;
  durationType : DurationType;
  customerName : string;
  customerEmail : string;
  customerPhone : string;
  notes : string
}.

Definition setSubmitting (v : bool) (s : State) : State :=
  mkState (bike s) (loading s) v (user s) (bookingType s) (startDate s) (startTime s)
    (duration s) (durationType s) (customerName s) (customerEmail s)
    (customerPhone s) (notes s).
Definition setBike (v : option Bike) (s : State) : State :=
  mkState v (loading s) (submitting s) (user s) (bookingType s) (startDate s)
    (startTime s) (duration s) (durationType s) (customerName s) (customerEmail s)
    (customerPhone s) (notes s).

Definition submitted_toast (t : BookingType) : Toast :=
  mkToast "Booking submitted!"
    match t with
    | instant => "Your bike is ready for pickup!"
    | pre_reservation => "Your booking request has been submitted for approval."
    end
    plain.
Definition failed_toast : Toast :=
  mkToast "Booking failed"
    "There was an error processing your booking. Please try again." destructive.

Section WithRuntime.
Context {rt : DateRuntime}.



Definition calculateTotal (s : State) : Z :=
  match bike s with
  | None => 0
  | Some b =>
      let rate := match durationType s with
                  | hours => hourlyRate b
                  | days => dailyRate b
                  end in
      rate * duration s
  end.

(** [null] is [None]; a returned [Date] may still be the invalid date. *)
Definition calculateEndDateTime (s : State) : option JsDate :=
  if bool_decide (startDate s = "") || bool_decide (startTime s = "") then None
  else
    let start := Date_parse (startDate s +:+ "T" +:+ startTime s) in
    let end_ := start in
    Some match durationType s with
         | hours => addHours end_ (duration s)
         | days => addDays end_ (duration s)
         end.

(** The object literal handed to [bookings.create]. *)
Definition booking_fields (s : State) (u : User) (b : Bike) (bookingId : string)
    (startISO endISO : string) : Booking :=
  {| id := bookingId;
     userId := uid u;
     bikeId := bike_id b;
     Store.bookingType := bookingType_text (bookingType s);
     Store.startDate := startISO;
     endDate := endISO;
     totalAmount := calculateTotal s;
     status := match bookingType s with
               | instant => "approved"
               | pre_reservation => "pending"
               end;
     Store.customerName := customerName s;
     Store.customerEmail := customerEmail s;
     Store.customerPhone := customerPhone s;
     Store.notes := notes s;
     createdAt := "";
     bikeNumber := None;
     deliveryStatus := None;
     returnStatus := None;
     deliveredAt := None;
     returnedAt := None;
     assignedByAdmin := None;
     updatedAt := None |}.

Definition handleSubmit : Eff State unit :=
  s ← get_page;
  match bike s, user s with
  | Some b, Some u =>
      set_page (setSubmitting true);;
      try_catch_finally
        (let startDateTime := Date_parse (startDate s +:+ "T" +:+ startTime s) in
         match calculateEndDateTime s with
         | None => throw "Invalid date/time selection"
         | Some endDateTime =>
             e ← get_env;
             let bookingId := "booking_" +:+ pretty (now e) +:+ "_" +:+ entropy e in
             startISO ← toISOString_or_throw startDateTime;
             endISO ← toISOString_or_throw endDateTime;
             db.bookings_create (booking_fields s u b bookingId startISO endISO);;
             toast (submitted_toast (bookingType s));;
             navigate "/my-rentals"
         end)
        (fun _ =>
           console_error "Error creating booking:";;
           toast failed_toast)
        (set_page (setSubmitting false))
  | _, _ => ret tt
  end.



(** *** Properties of the booking form *)

Definition unit_ms (d : DurationType) : Z :=
  match d with
  | hours => msPerHour
  | days => msPerDay
  end.


Definition start_text (s : State) : string := startDate s +:+ "T" +:+ startTime s.

Definition bookingId_of (e : Env) : string :=
  "booking_" +:+ pretty (now e) +:+ "_" +:+ entropy e.

(** The record sent by a submission that starts at instant [t]. *)
Definition draft_of (s : State) (u : User) (b : Bike) (t : Z) (e : Env) : Booking :=
  booking_fields s u b (bookingId_of e) (toISOString t)
    (toISOString (t + duration s * unit_ms (durationType s))).

(** The environment after a submission that went through. *)
Definition submitted_env (s : State) (u : User) (b : Bike) (t : Z) (e : Env) : Env :=
  let e1 := with_calls (calls e ++ [BookingCreate (draft_of s u b t e)]) e in
  with_visited (visited e ++ ["/my-rentals"])
    (with_toasts (toasts e ++ [submitted_toast (bookingType s)])
       (with_bookings (bookings e ++ [db.stamp e (draft_of s u b t e)]) e1)).

(** The environment after the create call was refused. *)
Definition refused_env (s : State) (u : User) (b : Bike) (t : Z) (e : Env) : Env :=
  let e1 := with_calls (calls e ++ [BookingCreate (draft_of s u b t e)]) e in
  with_toasts (toasts e ++ [failed_toast])
    (with_console (console e ++ ["Error creating booking:"]) e1).

(** Everything a submission needs before it reaches the store. *)
Definition ready (s : State) (u : User) (b : Bike) (t : Z) : Prop :=
  bike s = Some b /\ user s = Some u /\ startDate s <> "" /\ startTime s <> ""
  /\ Date_parse (start_text s) = Instant t.

Lemma calculateEndDateTime_instant (s : State) (t : Z) :
  startDate s <> "" -> startTime s <> "" ->
  Date_parse (start_text s) = Instant t ->
  calculateEndDateTime s = Some (Instant (t + duration s * unit_ms (durationType s))).
Proof.
  intros Hd Ht Hp. unfold calculateEndDateTime, start_text in *.
  rewrite !bool_decide_eq_false_2 by assumption. simpl.
  rewrite Hp. destruct (durationType s); reflexivity.
Qed.

Lemma handleSubmit_ready (w : World State) (u : User) (b : Bike) (t : Z) :
  ready (page w) u b t ->
  handleSubmit w =
    (Returned tt,
     mkWorld (setSubmitting false (setSubmitting true (page w)))
       (if outage (env w) (length (calls (env w)))
        then refused_env (page w) u b t (env w)
        else submitted_env (page w) u b t (env w))).
Proof.
  intros (Hb & Hu & Hd & Ht & Hp).
  unfold handleSubmit. run_handler. rewrite Hb, Hu.
  rewrite (calculateEndDateTime_instant _ t Hd Ht Hp).
  unfold start_text in Hp. rewrite Hp.
  unfold db.bookings_create, toISOString_or_throw. run_handler.
  destruct (outage (env w) (length (calls (env w)))); reflexivity.
Qed.








(** The handler catches whatever its body throws. *)
Lemma handleSubmit_never_throws (w : World State) :
  fst (handleSubmit w) = Returned tt.
Proof.
  unfold handleSubmit, calculateEndDateTime, db.bookings_create, toISOString_or_throw.
  run_handler.
  destruct (bike (page w)); [ | reflexivity ].
  destruct (user (page w)); [ | reflexivity ].
  destruct (bool_decide (startDate (page w) = "") || bool_decide (startTime (page w) = ""));
    [ reflexivity | ].
  simpl.
  destruct (Date_parse (startDate (page w) +:+ "T" +:+ startTime (page w)));
    [ reflexivity | ].
  simpl. destruct (durationType (page w)); simpl;
    destruct (outage (env w) (length (calls (env w)))); reflexivity.
Qed.


End WithRuntime.

(** *** The form on concrete inputs, in the UTC runtime *)

Definition trailblazer : Bike :=
  mkBike "bike-7" "Trailblazer" "Mountain" "Hardtail with front suspension"
         15 90 "https://example.org/trail.jpg" 1.



Definition offline_env : Env :=
  mkEnv [mkAdminUser "u-alice" "admin"] [] [] [] [] [] [] (fun _ => true) 0 "k3x9q2m1z".

Definition demo_booking : Booking :=
  mkBooking "booking_0_k3x9q2m1z" "u-bob" "bike-7" "instant"
    "2024-05-01T10:00:00.000Z" "2024-05-01T12:00:00.000Z" 30 "approved"
    "Bob" "bob@example.org" "555-0100" "" "1970-01-01T00:00:00.000Z"
    None None None None None None None.








End BookingPage.

(** ** Bookings shown with their bike (MyRentals.tsx, BookingManagement.tsx) *)

(** [interface BookingWithBike extends Booking { bike?: Bike }] *)
Record BookingWithBike := mkBookingWithBike {
  booking : Booking;
  bike : Nullable Bike
}.

(** The callback both pages map over the listed bookings: look the bike up by
    id; a failed lookup is logged and the booking is returned as it is. *)
Definition attachBike {P} (b : Booking) : Eff P BookingWithBike :=
  fun w =>
    match db.bikes_list (Some (bikeId b)) w with
    | (Returned found, w') => (Returned (mkBookingWithBike b (first_or_null found)), w')
    | (Thrown _, w') =>
        (console_error ("Error loading bike for booking: " +:+ id b);;
         ret (mkBookingWithBike b undefined)) w'
    end.

(** [Promise.all (list.map (attachBike))], the lookups taken in list order. *)
Fixpoint attachBikes {P} (l : list Booking) : Eff P (list BookingWithBike) :=
  match l with
  | [] => ret []
  | b :: rest =>
      x ← attachBike b;
      xs ← attachBikes rest;
      ret (x :: xs)
  end.

(** [{booking.bike?.name || 'Unknown Bike'}] *)
Definition card_title (x : BookingWithBike) : string :=
  match bike x with
  | present b => str_or (name b) "Unknown Bike"
  | null | undefined => "Unknown Bike"
  end.

Module MyRentals.

Record State := mkState {
  bookings : list BookingWithBike;
  loading : bool
}.

Definition initial : State := mkState [] true.

Definition setBookings (v : list BookingWithBike) (s : State) : State :=
  mkState v (loading s).
Definition setLoading (v : bool) (s : State) : State :=
  mkState (bookings s) v.

Definition loadBookings (user : User) : Eff State unit :=
  try_catch_finally
    (userBookings ← db.bookings_list (Some (uid user)) true;
     bookingsWithBikes ← attachBikes userBookings;
     set_page (setBookings bookingsWithBikes))
    (fun _ => console_error "Error loading bookings:")
    (set_page (setLoading false)).

Definition getStatusText (status : string) : string :=
  if decide (status = "approved") then "Approved"
  else if decide (status = "pending") then "Pending Approval"
  else if decide (status = "rejected") then "Rejected"
  else if decide (status = "completed") then "Completed"
  else if decide (status = "cancelled") then "Cancelled"
  else status.

Definition filterBookings (status : option string) (s : State) : list BookingWithBike :=
  match status with
  | None => bookings s
  | Some st =>
      if decide (st = "") then bookings s
      else List.filter (fun x => bool_decide (Store.status (booking x) = st)) (bookings s)
  end.

(** What a card of the list shows (heading and badge). *)
Record Card := mkCard {
  card_heading : string;
  card_badge : string
}.

Inductive ListView :=
| NoBookingsFound
| Cards (cards : list Card).

Definition BookingsList (l : list BookingWithBike) : ListView :=
  match l with
  | [] => NoBookingsFound
  | _ => Cards (List.map (fun x => mkCard (card_title x)
                                          (getStatusText (status (booking x)))) l)
  end.

End MyRentals.

Module BookingManagement.

Record State := mkState {
  bookings : list BookingWithBike;
  loading : bool;
  processingBookings : gset string;
  selectedBooking : option BookingWithBike;
  bikeNumberInput : string;
  deliveryStatusInput : string;
  returnStatusInput : string;
  dialogOpen : bool
}.

Definition initial : State := mkState [] true ∅ None "" "" "" false.

Definition setBookings (v : list BookingWithBike) (s : State) : State :=
  mkState v (loading s) (processingBookings s) (selectedBooking s) (bikeNumberInput s)
    (deliveryStatusInput s) (returnStatusInput s) (dialogOpen s).
Definition setLoading (v : bool) (s : State) : State :=
  mkState (bookings s) v (processingBookings s) (selectedBooking s) (bikeNumberInput s)
    (deliveryStatusInput s) (returnStatusInput s) (dialogOpen s).
Definition setProcessingBookings (f : gset string -> gset string) (s : State) : State :=
  mkState (bookings s) (loading s) (f (processingBookings s)) (selectedBooking s)
    (bikeNumberInput s) (deliveryStatusInput s) (returnStatusInput s) (dialogOpen s).
Definition setDialogOpen (v : bool) (s : State) : State :=
  mkState (bookings s) (loading s) (processingBookings s) (selectedBooking s)
    (bikeNumberInput s) (deliveryStatusInput s) (returnStatusInput s) v.

Definition load_error_toast : Toast :=
  mkToast "Error" "Failed to load bookings." destructive.

Definition loadBookings : Eff State unit :=
  try_catch_finally
    (allBookings ← db.bookings_list None true;
     bookingsWithBikes ← attachBikes allBookings;
     set_page (setBookings bookingsWithBikes))
    (fun _ =>
       console_error "Error loading bookings:";;
       toast load_error_toast)
    (set_page (setLoading false)).

Inductive Action := approve | reject.
Inductive Notice := n_approve | n_reject | n_delivered | n_returned.
Inductive UpdateType := delivery | return_.

Definition action_text (a : Action) : string :=
  match a with approve => "approve" | reject => "reject" end.
Definition notice_of (a : Action) : Notice :=
  match a with approve => n_approve | reject => n_reject end.
Definition type_text (t : UpdateType) : string :=
  match t with delivery => "delivery" | return_ => "return" end.

(** [`${x}`] of a field that may be missing prints [undefined]. *)
Definition shown (o : option string) : string := default "undefined" o.

Definition bike_name_shown (x : BookingWithBike) : string :=
  match bike x with
  | present b => name b
  | null | undefined => "undefined"
  end.

Definition notification (x : BookingWithBike) (n : Notice) : string :=
  let b := booking x in
  match n with
  | n_approve =>
      "Great news! Your bike rental for " +:+ bike_name_shown x
      +:+ " has been approved. "
      +:+ match bikeNumber b with
          | Some nr => if decide (nr = "") then ""
                       else "Bike Number: " +:+ nr +:+ ". "
          | None => ""
          end
      +:+ "Pickup details will be sent shortly."
  | n_reject =>
      "We're sorry, but your bike rental request for " +:+ bike_name_shown x
      +:+ " has been declined. Please contact us for more information."
  | n_delivered =>
      "Your bike " +:+ bike_name_shown x +:+ " (" +:+ shown (bikeNumber b)
      +:+ ") has been delivered! Enjoy your ride and remember to return it on time."
  | n_returned =>
      "Thank you for returning the bike " +:+ bike_name_shown x +:+ " ("
      +:+ shown (bikeNumber b) +:+ "). Your rental is now complete!"
  end.

(** Notifications are only written to the console. *)
Definition sendNotifications (x : BookingWithBike) (n : Notice) : Eff State unit :=
  console_log ("Sending WhatsApp to: " +:+ customerPhone (booking x) +:+ " "
                 +:+ notification x n);;
  console_log ("Sending Email to: " +:+ customerEmail (booking x) +:+ " "
                 +:+ notification x n).

Section WithRuntime.
Context {rt : DateRuntime}.

(** The object literal [{ status: newStatus, updatedAt: ... }]. *)
Definition actionUpdateData (action : Action) (stamp : string) : gmap string string :=
  let newStatus := match action with
                   | approve => "approved"
                   | reject => "rejected"
                   end in
  <["status" := newStatus]> {["updatedAt" := stamp]}.

Definition handleBookingAction (bookingId : string) (action : Action) : Eff State unit :=
  set_page (setProcessingBookings (fun prev => prev ∪ {[bookingId]}));;
  try_catch_finally
    (e ← get_env;
     db.bookings_update bookingId (actionUpdateData action (toISOString (now e)));;
     s ← get_page;
     match List.find (fun x => bool_decide (id (booking x) = bookingId)) (bookings s) with
     | Some x => sendNotifications x (notice_of action)
     | None => ret tt
     end;;
     toast (mkToast "Success"
              ("Booking " +:+ match action with
                              | approve => "approved"
                              | reject => "rejected"
                              end +:+ " and notifications sent!") plain);;
     loadBookings)
    (fun _ =>
       console_error ("Error " +:+ action_text action +:+ "ing booking:");;
       toast (mkToast "Error" ("Failed to " +:+ action_text action +:+ " booking.")
                destructive))
    (set_page (setProcessingBookings (fun prev => prev ∖ {[bookingId]}))).

(** The [updateData] object of [handleStatusUpdate], built field by field. *)
Definition statusUpdateData (type : UpdateType) (s : State) (stamp : string)
    : gmap string string :=
  let updateData : gmap string string := {["updatedAt" := stamp]} in
  match type with
  | delivery =>
      let u1 := <["deliveryStatus" := deliveryStatusInput s]> updateData in
      let u2 := if decide (deliveryStatusInput s = "delivered")
                then <["deliveredAt" := stamp]> u1 else u1 in
      if decide (bikeNumberInput s = "") then u2
      else <["bikeNumber" := bikeNumberInput s]> u2
  | return_ =>
      let u1 := <["returnStatus" := returnStatusInput s]> updateData in
      if decide (returnStatusInput s = "returned")
      then <["status" := "completed"]> (<["returnedAt" := stamp]> u1)
      else u1
  end.

Definition handleStatusUpdate (type : UpdateType) : Eff State unit :=
  s ← get_page;
  match selectedBooking s with
  | None => ret tt
  | Some sel =>
      let sel_id := id (booking sel) in
      set_page (setProcessingBookings (fun prev => prev ∪ {[sel_id]}));;
      try_catch_finally
        (e ← get_env;
         db.bookings_update sel_id (statusUpdateData type s (toISOString (now e)));;
         match type with
         | delivery =>
             if decide (deliveryStatusInput s = "delivered")
             then sendNotifications sel n_delivered else ret tt
         | return_ =>
             if decide (returnStatusInput s = "returned")
             then sendNotifications sel n_returned else ret tt
         end;;
         toast (mkToast "Success"
                  (match type with delivery => "Delivery" | return_ => "Return" end
                   +:+ " status updated successfully!") plain);;
         set_page (setDialogOpen false);;
         loadBookings)
        (fun _ =>
           console_error ("Error updating " +:+ type_text type +:+ " status:");;
           toast (mkToast "Error" ("Failed to update " +:+ type_text type +:+ " status.")
                    destructive))
        (set_page (setProcessingBookings (fun prev => prev ∖ {[sel_id]})))
  end.

End WithRuntime.


Definition getStatusText (status : string) : string :=
  if decide (status = "approved") then "Approved"
  else if decide (status = "pending") then "Pending"
  else if decide (status = "rejected") then "Rejected"
  else if decide (status = "completed") then "Completed"
  else if decide (status = "cancelled") then "Cancelled"
  else status.

Definition filterBookings (status : option string) (s : State) : list BookingWithBike :=
  match status with
  | None => bookings s
  | Some st =>
      if decide (st = "") then bookings s
      else List.filter (fun x => bool_decide (Store.status (booking x) = st)) (bookings s)
  end.

(** What a card of the list shows (heading, badge, which buttons). *)
Record Card := mkCard {
  card_heading : string;
  card_badge : string;
  offers_approval : bool;
  offers_status_update : bool
}.

Inductive ListView :=
| NoBookingsFound
| Cards (cards : list Card).

Definition BookingsList (showActions showStatusUpdate : bool)
    (l : list BookingWithBike) : ListView :=
  match l with
  | [] => NoBookingsFound
  | _ =>
      Cards (List.map
               (fun x =>
                  let st := status (booking x) in
                  mkCard (card_title x) (getStatusText st)
                    (showActions && bool_decide (st = "pending"))
                    ((showStatusUpdate || bool_decide (st = "approved"))
                     && negb (bool_decide (st = "rejected"))))
               l)
  end.

End BookingManagement.

(** ** Loading bookings: what the lookups return *)

Module BookingLists.

(** The stored data and the fault plan, which no read changes. *)
Definition same_store (e e' : Env) : Prop :=
  admin_users e' = admin_users e /\ bikes e' = bikes e
  /\ Host.bookings e' = Host.bookings e /\ outage e' = outage e /\ now e' = now e.

Lemma same_store_refl (e : Env) : same_store e e.
Proof. repeat split. Qed.

Lemma same_store_trans (e1 e2 e3 : Env) :
  same_store e1 e2 -> same_store e2 e3 -> same_store e1 e3.
Proof.
  unfold same_store. intros (A1 & B1 & C1 & D1 & E1) (A2 & B2 & C2 & D2 & E2).
  repeat split; congruence.
Qed.

(** [bikes[0] || null] for the bikes whose id is the booking's [bikeId]. *)
Definition lookup_bike (store : list Bike) (b : Booking) : Nullable Bike :=
  first_or_null (List.filter (db.bike_where (Some (bikeId b))) store).

Lemma lookup_bike_missing (store : list Bike) (b : Booking) :
  (forall k, In k store -> bike_id k <> bikeId b) ->
  lookup_bike store b = null.
Proof.
  intros Hnone. unfold lookup_bike.
  induction store as [ | k store IH ]; simpl; [ reflexivity | ].
  rewrite bool_decide_eq_false_2 by (apply Hnone; now left).
  apply IH. intros k' Hin. apply Hnone. now right.
Qed.

Section Lookups.
Context {P : Type}.

Lemma attachBike_run (b : Booking) (w : World P) :
  exists x w',
    attachBike b w = (Returned x, w')
    /\ page w' = page w
    /\ same_store (env w) (env w')
    /\ booking x = b
    /\ (bike x = undefined \/ bike x = lookup_bike (bikes (env w)) b)
    /\ ((forall k, outage (env w) k = false) ->
        bike x = lookup_bike (bikes (env w)) b).
Proof.
  unfold attachBike, db.bikes_list. run_handler.
  destruct (outage (env w) (length (calls (env w)))) eqn:Hout; simpl.
  - eexists _, _. split; [ reflexivity | ]. simpl.
    repeat split; [ now left | ].
    intros Hup. rewrite Hup in Hout. discriminate.
  - eexists _, _. split; [ reflexivity | ]. simpl.
    repeat split. now right.
Qed.

Lemma attachBikes_run (l : list Booking) (w : World P) :
  exists xs w',
    attachBikes l w = (Returned xs, w')
    /\ page w' = page w
    /\ same_store (env w) (env w')
    /\ List.map booking xs = l
    /\ Forall (fun x => bike x = undefined
                        \/ bike x = lookup_bike (bikes (env w)) (booking x)) xs
    /\ ((forall k, outage (env w) k = false) ->
        Forall (fun x => bike x = lookup_bike (bikes (env w)) (booking x)) xs).
Proof.
  revert w. induction l as [ | b rest IH ]; intros w.
  - exists [], w. simpl. repeat split; auto using same_store_refl.
  - destruct (attachBike_run b w) as (x & w1 & Hx & Hp1 & Hs1 & Hb & Hor & Hall).
    destruct (IH w1) as (xs & w2 & Hxs & Hp2 & Hs2 & Hmap & Hfor & Hfor').
    assert (Hbikes : bikes (env w1) = bikes (env w)) by apply Hs1.
    assert (Hout : outage (env w1) = outage (env w)) by apply Hs1.
    exists (x :: xs), w2.
    split.
    { simpl. unfold mbind, eff_bind, bind. rewrite Hx. fold (@attachBikes P).
      rewrite Hxs. reflexivity. }
    split; [ congruence | ].
    split; [ eapply same_store_trans; eassumption | ].
    split; [ simpl; congruence | ].
    rewrite Hbikes in Hfor, Hfor'. rewrite Hout in Hfor'.
    split.
    + constructor; [ rewrite Hb; exact Hor | exact Hfor ].
    + intros Hup. constructor; [ rewrite Hb; now apply Hall | now apply Hfor' ].
Qed.

End Lookups.

Lemma In_insert_desc (b x : Booking) (l : list Booking) :
  In x (db.insert_desc b l) <-> x = b \/ In x l.
Proof.
  induction l as [ | y l IH ]; simpl.
  - intuition.
  - destruct (String.ltb (createdAt y) (createdAt b)); simpl; [ intuition | ].
    rewrite IH. intuition.
Qed.

Lemma In_orderBy (x : Booking) (l : list Booking) :
  In x (db.orderBy_createdAt_desc l) <-> In x l.
Proof.
  induction l as [ | y l IH ]; simpl; [ reflexivity | ].
  rewrite In_insert_desc, IH. intuition.
Qed.

(** A loaded list: every entry is a listed booking with the outcome of its
    lookup, and every listed booking has an entry. *)
Definition loaded_from (e : Env) (listed : list Booking) (xs : list BookingWithBike) : Prop :=
  (forall b, In b listed <-> exists x, In x xs /\ booking x = b)
  /\ Forall (fun x => bike x = undefined
                      \/ bike x = lookup_bike (bikes e) (booking x)) xs
  /\ ((forall k, outage e k = false) ->
      Forall (fun x => bike x = lookup_bike (bikes e) (booking x)) xs).

Lemma BookingManagement_loadBookings_run (w : World BookingManagement.State) :
  exists w',
    BookingManagement.loadBookings w = (Returned tt, w')
    /\ same_store (env w) (env w')
    /\ (outage (env w) (length (calls (env w))) = false ->
        loaded_from (env w) (Host.bookings (env w))
                    (BookingManagement.bookings (page w'))).
Proof.
  unfold BookingManagement.loadBookings, db.bookings_list. run_handler.
  destruct (outage (env w) (length (calls (env w)))) eqn:Hout; simpl.
  - eexists. split; [ reflexivity | ]. simpl. split; [ repeat split | discriminate ].
  - match goal with
    | |- context [ attachBikes ?l ?w0 ] =>
        destruct (attachBikes_run l w0) as (xs & w1 & Hxs & Hp & Hs & Hmap & Hfor & Hup)
    end.
    rewrite Hxs. simpl. eexists. split; [ reflexivity | ]. simpl.
    split; [ exact Hs | ]. intros _. simpl in Hfor, Hup.
    split; [ | split; assumption ].
    assert (Hall : forall l, List.filter (db.booking_where None) l = l).
    { induction l as [ | y l IH ]; simpl; congruence. }
    rewrite Hall in Hmap.
    intros b. rewrite <- (In_orderBy b), <- Hmap, in_map_iff.
    split; intros (x & Hx1 & Hx2); exists x; tauto.
Qed.

Lemma MyRentals_loadBookings_run (user : User) (w : World MyRentals.State) :
  exists w',
    MyRentals.loadBookings user w = (Returned tt, w')
    /\ same_store (env w) (env w')
    /\ (outage (env w) (length (calls (env w))) = false ->
        loaded_from (env w)
          (List.filter (db.booking_where (Some (uid user))) (Host.bookings (env w)))
          (MyRentals.bookings (page w'))).
Proof.
  unfold MyRentals.loadBookings, db.bookings_list. run_handler.
  destruct (outage (env w) (length (calls (env w)))) eqn:Hout; simpl.
  - eexists. split; [ reflexivity | ]. simpl. split; [ repeat split | discriminate ].
  - match goal with
    | |- context [ attachBikes ?l ?w0 ] =>
        destruct (attachBikes_run l w0) as (xs & w1 & Hxs & Hp & Hs & Hmap & Hfor & Hup)
    end.
    rewrite Hxs. simpl. eexists. split; [ reflexivity | ]. simpl.
    split; [ exact Hs | ]. intros _. simpl in Hfor, Hup.
    split; [ | split; assumption ].
    intros b. rewrite <- (In_orderBy b), <- Hmap, in_map_iff.
    split; intros (x & Hx1 & Hx2); exists x; tauto.
Qed.

Lemma MyRentals_heading (l : list BookingWithBike) (x : BookingWithBike) :
  In x l ->
  exists cs c,
    MyRentals.BookingsList l = MyRentals.Cards cs
    /\ In c cs /\ MyRentals.card_heading c = card_title x.
Proof.
  intros Hin. destruct l as [ | y l ]; [ contradiction | ].
  eexists _, _. split; [ reflexivity | ].
  split; [ apply in_map_iff; exists x; split; [ reflexivity | exact Hin ] | ].
  reflexivity.
Qed.

Lemma BookingManagement_heading (showActions showStatusUpdate : bool)
    (l : list BookingWithBike) (x : BookingWithBike) :
  In x l ->
  exists cs c,
    BookingManagement.BookingsList showActions showStatusUpdate l =
      BookingManagement.Cards cs
    /\ In c cs /\ BookingManagement.card_heading c = card_title x.
Proof.
  intros Hin. destruct l as [ | y l ]; [ contradiction | ].
  eexists _, _. split; [ reflexivity | ].
  split; [ apply in_map_iff; exists x; split; [ reflexivity | exact Hin ] | ].
  reflexivity.
Qed.

Lemma loaded_entry_unknown (e : Env) (listed : list Booking)
    (xs : list BookingWithBike) (x : BookingWithBike) :
  loaded_from e listed xs ->
  In x xs ->
  (forall k, In k (bikes e) -> bike_id k <> bikeId (booking x)) ->
  card_title x = "Unknown Bike"
  /\ ((forall k, outage e k = false) -> bike x = null).
Proof.
  intros (_ & Hfor & Hup) Hin Hnone.
  pose proof (lookup_bike_missing (bikes e) (booking x) Hnone) as Hnull.
  rewrite List.Forall_forall in Hfor. specialize (Hfor x Hin).
  split.
  - unfold card_title. destruct Hfor as [ -> | -> ]; [ reflexivity | ].
    now rewrite Hnull.
  - intros Hall. specialize (Hup Hall). rewrite List.Forall_forall in Hup.
    now rewrite (Hup x Hin).
Qed.

(** C8. A stored booking whose [bikeId] matches no bike record is still
    loaded by both pages; its lookup yields [null] (the entry stays without a
    bike when the lookup call itself fails) and every list showing it renders
    the heading [Unknown Bike]. *)
Theorem unknown_bike_fallback (user : User) (e : Env)
    (s1 : MyRentals.State) (s2 : BookingManagement.State) (b : Booking) :
  outage e (length (calls e)) = false ->
  In b (Host.bookings e) ->
  (forall k, In k (bikes e) -> bike_id k <> bikeId b) ->
  let mine :=
    MyRentals.bookings (page (exec (MyRentals.loadBookings user) (mkWorld s1 e))) in
  let all :=
    BookingManagement.bookings
      (page (exec BookingManagement.loadBookings (mkWorld s2 e))) in
  lookup_bike (bikes e) b = null
  /\ (exists x, In x all /\ booking x = b)
  /\ (userId b = uid user -> exists x, In x mine /\ booking x = b)
  /\ (forall x, In x all \/ In x mine -> booking x = b ->
        card_title x = "Unknown Bike"
        /\ ((forall k, outage e k = false) -> bike x = null))
  /\ (forall x shown, In x all -> booking x = b -> In x shown ->
        forall showActions showStatusUpdate,
        exists cs c,
          BookingManagement.BookingsList showActions showStatusUpdate shown =
            BookingManagement.Cards cs
          /\ In c cs /\ BookingManagement.card_heading c = "Unknown Bike")
  /\ (forall x shown, In x mine -> booking x = b -> In x shown ->
        exists cs c,
          MyRentals.BookingsList shown = MyRentals.Cards cs
          /\ In c cs /\ MyRentals.card_heading c = "Unknown Bike").
Proof.
  intros Hup Hin Hnone mine all.
  destruct (MyRentals_loadBookings_run user (mkWorld s1 e)) as (w1 & Hrun1 & _ & Hl1).
  destruct (BookingManagement_loadBookings_run (mkWorld s2 e)) as (w2 & Hrun2 & _ & Hl2).
  specialize (Hl1 Hup). specialize (Hl2 Hup). simpl in Hl1, Hl2.
  assert (Hmine : mine = MyRentals.bookings (page w1))
    by (subst mine; unfold exec; now rewrite Hrun1).
  assert (Hall : all = BookingManagement.bookings (page w2))
    by (subst all; unfold exec; now rewrite Hrun2).
  clearbody mine all. subst mine all.
  assert (Htitle : forall x,
            In x (BookingManagement.bookings (page w2)) \/ In x (MyRentals.bookings (page w1)) ->
            booking x = b ->
            card_title x = "Unknown Bike"
            /\ ((forall k, outage e k = false) -> bike x = null)).
  { intros x [ Hx | Hx ] Hb; rewrite <- Hb in Hnone.
    - exact (loaded_entry_unknown _ _ _ x Hl2 Hx Hnone).
    - exact (loaded_entry_unknown _ _ _ x Hl1 Hx Hnone). }
  split; [ now apply lookup_bike_missing | ].
  split; [ now apply (proj1 Hl2) | ].
  split.
  { intros Hu. apply (proj1 Hl1). apply filter_In. split; [ exact Hin | ].
    simpl. now apply bool_decide_eq_true_2. }
  split; [ exact Htitle | ].
  split.
  - intros x shown Hx Hb Hs sa su.
    destruct (BookingManagement_heading sa su shown x Hs) as (cs & c & Hv & Hc & Hh).
    exists cs, c. repeat split; try assumption.
    rewrite Hh. apply Htitle; [ now left | exact Hb ].
  - intros x shown Hx Hb Hs.
    destruct (MyRentals_heading shown x Hs) as (cs & c & Hv & Hc & Hh).
    exists cs, c. repeat split; try assumption.
    rewrite Hh. apply Htitle; [ now right | exact Hb ].
Qed.

Definition orphan_env : Env :=
  mkEnv [] [] [BookingPage.demo_booking] [] [] [] [] (fun _ => false) 0 "k3x9q2m1z".

Lemma unknown_bike_fallback_witness :
  BookingManagement.BookingsList false true
    (BookingManagement.bookings
       (page (exec BookingManagement.loadBookings
                (mkWorld BookingManagement.initial orphan_env)))) =
    BookingManagement.Cards [BookingManagement.mkCard "Unknown Bike" "Approved" false true]
  /\ lookup_bike (bikes orphan_env) BookingPage.demo_booking = null.
Proof.
  assert (Hup : outage orphan_env (length (calls orphan_env)) = false) by reflexivity.
  assert (Hin : In BookingPage.demo_booking (Host.bookings orphan_env)) by (now left).
  assert (Hnone : forall k, In k (bikes orphan_env) ->
                            bike_id k <> bikeId BookingPage.demo_booking)
    by (intros k []).
  destruct (unknown_bike_fallback bob orphan_env MyRentals.initial
              BookingManagement.initial BookingPage.demo_booking Hup Hin Hnone)
    as (Hnull & _).
  split; [ vm_compute; reflexivity | exact Hnull ].
Defined.

End BookingLists.

(** ** Status updates: which fields a write touches *)

Module StatusUpdates.
Import BookingManagement.

Section WithRuntime.
Context {rt : DateRuntime}.







End WithRuntime.

(** *** A return marked [returned], in the UTC runtime *)

Definition returning : State :=
  mkState [mkBookingWithBike BookingPage.demo_booking null] false ∅
          (Some (mkBookingWithBike BookingPage.demo_booking null))
          "" "delivered" "returned" true.

Definition returning_world : World State :=
  mkWorld returning BookingLists.orphan_env.



End StatusUpdates.

(** ** BrowseBikes.tsx *)

Module BrowseBikes.

(** [c.toLowerCase ()] on an ASCII letter. *)
Definition lower_ascii (c : ascii) : ascii :=
  let n := nat_of_ascii c in
  if (65 <=? n)%nat && (n <=? 90)%nat then ascii_of_nat (n + 32) else c.

Fixpoint toLowerCase (s : string) : string :=
  match s with
  | EmptyString => EmptyString
  | String c rest => String (lower_ascii c) (toLowerCase rest)
  end.

(** [hay.includes (needle)] *)
Fixpoint includes (needle hay : string) : bool :=
  String.prefix needle hay
  || match hay with
     | EmptyString => false
     | String _ rest => includes needle rest
     end.

Example includes_examples :
  includes "mount" (toLowerCase "Mountain") = true
  /\ includes "mount" (toLowerCase "Trailblazer") = false
  /\ includes "" "abc" = true.
Proof. vm_compute. repeat split. Qed.

(** String collation belongs to the runtime's locale. *)
Class Collation := {
  localeCompare : string -> string -> Z
}.

(** Collation by character codes. *)
Definition code_order : Collation := {|
  localeCompare := fun a b =>
    match String.compare a b with
    | Lt => -1
    | Eq => 0
    | Gt => 1
    end
|}.

Record State := mkState {
  bikes : list Bike;
  filteredBikes : list Bike;
  loading : bool;
  searchTerm : string;
  selectedType : string;
  sortBy : string
}.

Definition initial : State := mkState [] [] true "" "all" "name".

Definition setSearchTerm (v : string) (s : State) : State :=
  mkState (bikes s) (filteredBikes s) (loading s) v (selectedType s) (sortBy s).

Definition matches_search (term : string) (b : Bike) : bool :=
  includes (toLowerCase term) (toLowerCase (name b))
  || includes (toLowerCase term) (toLowerCase (type b))
  || includes (toLowerCase term) (toLowerCase (description b)).

Definition matches_type (selected : string) (b : Bike) : bool :=
  bool_decide (toLowerCase (type b) = toLowerCase selected).

Section WithCollation.
Context {co : Collation}.

(** The comparator handed to [sort]. *)
Definition compareBikes (sortBy : string) (a b : Bike) : Z :=
  if decide (sortBy = "price-low") then hourlyRate a - hourlyRate b
  else if decide (sortBy = "price-high") then hourlyRate b - hourlyRate a
  else if decide (sortBy = "type") then localeCompare (type a) (type b)
  else localeCompare (name a) (name b).

(** [Array.prototype.sort] is stable; insertion from the right keeps equal
    elements in their order. *)
Fixpoint insert_sorted (cmp : Bike -> Bike -> Z) (x : Bike) (l : list Bike) : list Bike :=
  match l with
  | [] => [x]
  | y :: rest => if cmp x y <=? 0 then x :: l else y :: insert_sorted cmp x rest
  end.

Definition sort (cmp : Bike -> Bike -> Z) (l : list Bike) : list Bike :=
  List.fold_right (insert_sorted cmp) [] l.

(** The effect run when the bikes, the term, the type or the order change.
    [sort] works in place: with no filter active [filtered] is the [bikes]
    array itself, which is then sorted too. *)
Definition filterEffect (s : State) : State :=
  let filtered := bikes s in
  let searching := negb (bool_decide (searchTerm s = "")) in
  let filtered := if searching
                  then List.filter (matches_search (searchTerm s)) filtered
                  else filtered in
  let typed := negb (bool_decide (selectedType s = "all")) in
  let filtered := if typed
                  then List.filter (matches_type (selectedType s)) filtered
                  else filtered in
  let sorted := sort (compareBikes (sortBy s)) filtered in
  mkState (if searching || typed then bikes s else sorted) sorted
          (loading s) (searchTerm s) (selectedType s) (sortBy s).

(** *** Properties of the catalog filter *)

Lemma In_insert_sorted (cmp : Bike -> Bike -> Z) (x y : Bike) (l : list Bike) :
  In y (insert_sorted cmp x l) <-> y = x \/ In y l.
Proof.
  induction l as [ | z l IH ]; simpl.
  - intuition.
  - destruct (cmp x z <=? 0); simpl; [ intuition | ].
    rewrite IH. intuition.
Qed.

Lemma In_sort (cmp : Bike -> Bike -> Z) (y : Bike) (l : list Bike) :
  In y (sort cmp l) <-> In y l.
Proof.
  unfold sort. induction l as [ | x l IH ]; simpl; [ reflexivity | ].
  rewrite In_insert_sorted, IH. intuition.
Qed.

(** Which bikes the effect keeps. *)
Lemma filterEffect_keeps (s : State) (b : Bike) :
  In b (filteredBikes (filterEffect s)) <->
  In b (bikes s)
  /\ (searchTerm s = "" \/ matches_search (searchTerm s) b = true)
  /\ (selectedType s = "all" \/ matches_type (selectedType s) b = true).
Proof.
  unfold filterEffect. simpl. rewrite In_sort.
  destruct (decide (searchTerm s = "")) as [ Ht | Ht ];
    destruct (decide (selectedType s = "all")) as [ Hy | Hy ];
    rewrite ?(bool_decide_eq_true_2 _ Ht), ?(bool_decide_eq_false_2 _ Ht),
            ?(bool_decide_eq_true_2 _ Hy), ?(bool_decide_eq_false_2 _ Hy);
    simpl; rewrite ?filter_In; intuition.
Qed.

(** C6 as written: with a term typed in, a bike whose name does not contain
    the term is not listed. *)
Definition name_filter_excludes (s : State) : Prop :=
  forall b,
    includes (toLowerCase (searchTerm s)) (toLowerCase (name b)) = false ->
    ~ In b (filteredBikes (filterEffect s)).

(** C6, amended. With a non-empty search term, every listed bike is one of
    the loaded bikes and contains the term, letter case aside, in its name,
    its type or its description; a bike that fails all three matches is not
    listed. *)
Theorem search_excludes_unmatched (s : State) :
  searchTerm s <> "" ->
  let term := toLowerCase (searchTerm s) in
  (forall b,
     In b (filteredBikes (filterEffect s)) ->
     In b (bikes s)
     /\ (includes term (toLowerCase (name b)) = true
         \/ includes term (toLowerCase (type b)) = true
         \/ includes term (toLowerCase (description b)) = true))
  /\ (forall b,
        includes term (toLowerCase (name b)) = false ->
        includes term (toLowerCase (type b)) = false ->
        includes term (toLowerCase (description b)) = false ->
        ~ In b (filteredBikes (filterEffect s))).
Proof.
  intros Hterm term.
  assert (Hkept : forall b,
            In b (filteredBikes (filterEffect s)) ->
            In b (bikes s) /\ matches_search (searchTerm s) b = true).
  { intros b Hin. apply filterEffect_keeps in Hin.
    destruct Hin as (Hb & [ Hempty | Hm ] & _); [ contradiction | auto ]. }
  split.
  - intros b Hin. destruct (Hkept b Hin) as (Hb & Hm). split; [ exact Hb | ].
    unfold matches_search in Hm. fold term in Hm.
    apply orb_true_iff in Hm. destruct Hm as [ Hm | Hm ]; [ | auto ].
    apply orb_true_iff in Hm. tauto.
  - intros b Hn Hy Hd Hin. destruct (Hkept b Hin) as (_ & Hm).
    unfold matches_search in Hm. fold term in Hm.
    rewrite Hn, Hy, Hd in Hm. discriminate.
Qed.

End WithCollation.

(** *** Searching for "mount" *)

Definition roadster : Bike :=
  mkBike "bike-8" "Roadster" "Road" "Light frame for the city"
         20 110 "https://example.org/road.jpg" 1.

Definition searching : State :=
  mkState [roadster; BookingPage.trailblazer] [] false "mount" "all" "name".

(** C6 as written fails: "Trailblazer" does not contain "mount", yet the bike
    is listed because its type "Mountain" does. *)
Lemma name_filter_counterexample :
  includes (toLowerCase "mount") (toLowerCase (name BookingPage.trailblazer)) = false
  /\ filteredBikes (@filterEffect code_order searching) = [BookingPage.trailblazer]
  /\ ~ @name_filter_excludes code_order searching.
Proof.
  assert (Hlisted : filteredBikes (@filterEffect code_order searching) =
                    [BookingPage.trailblazer]) by (vm_compute; reflexivity).
  split; [ vm_compute; reflexivity | split; [ exact Hlisted | ] ].
  intros Hclaim. apply (Hclaim BookingPage.trailblazer).
  - vm_compute. reflexivity.
  - rewrite Hlisted. now left.
Qed.

Lemma search_excludes_unmatched_witness :
  ~ In roadster (filteredBikes (@filterEffect code_order searching)).
Proof.
  assert (Hterm : searchTerm searching <> "") by discriminate.
  destruct (@search_excludes_unmatched code_order searching Hterm) as (_ & Hout).
  apply (Hout roadster); vm_compute; reflexivity.
Defined.

End BrowseBikes.

(** ** AdminDashboard.tsx *)

Module AdminDashboard.

Record DashboardStats := mkStats {
  totalBikes : Z;
  availableBikes : Z;
  totalBookings : Z;
  pendingBookings : Z;
  totalRevenue : Z;
  monthlyRevenue : Z
}.

Record State := mkState {
  stats : DashboardStats;
  loading : bool
}.

Definition initial : State := mkState (mkStats 0 0 0 0 0 0) true.

Definition setStats (v : DashboardStats) (s : State) : State := mkState v (loading s).
Definition setLoading (v : bool) (s : State) : State := mkState (stats s) v.

(** [booking.status === 'approved' || booking.status === 'completed'] *)
Definition earns (b : Booking) : bool :=
  bool_decide (status b = "approved") || bool_decide (status b = "completed").

(** [.reduce ((sum, booking) => sum + booking.totalAmount, 0)] *)
Definition revenue (l : list Booking) : Z :=
  List.fold_left (fun sum b => sum + totalAmount b) l 0.

Section WithRuntime.
Context {rt : DateRuntime}.

(** The predicate of the monthly filter; a field of the invalid date is [NaN]
    and equals nothing. *)
Definition in_month (currentMonth currentYear : Z) (b : Booking) : bool :=
  match Date_parse (createdAt b) with
  | InvalidDate => false
  | Instant bookingDate =>
      (getMonth bookingDate =? currentMonth)
      && (getFullYear bookingDate =? currentYear)
      && earns b
  end.

Definition total_of (allBookings : list Booking) : Z :=
  revenue (List.filter earns allBookings).

Definition monthly_of (clock : Z) (allBookings : list Booking) : Z :=
  revenue (List.filter (in_month (getMonth clock) (getFullYear clock)) allBookings).

Definition loadDashboardStats : Eff State unit :=
  try_catch_finally
    (allBikes ← db.bikes_list None;
     let availableBikes := List.filter (fun b => 0 <? isAvailable b) allBikes in
     allBookings ← db.bookings_list None false;
     let pendingBookings :=
       List.filter (fun b => bool_decide (status b = "pending")) allBookings in
     e ← get_env;
     set_page (setStats
       {| totalBikes := Z.of_nat (length allBikes);
          availableBikes := Z.of_nat (length availableBikes);
          totalBookings := Z.of_nat (length allBookings);
          pendingBookings := Z.of_nat (length pendingBookings);
          totalRevenue := total_of allBookings;
          monthlyRevenue := monthly_of (now e) allBookings |}))
    (fun _ => console_error "Error loading dashboard stats:")
    (set_page (setLoading false)).

(** *** Properties of the revenue figures *)

Lemma fold_sum_shift (l : list Booking) (acc : Z) :
  List.fold_left (fun sum b => sum + totalAmount b) l acc = acc + revenue l.
Proof.
  unfold revenue. revert acc. induction l as [ | b l IH ]; intros acc; simpl.
  - lia.
  - rewrite IH, (IH (0 + totalAmount b)). lia.
Qed.

Lemma revenue_cons (b : Booking) (l : list Booking) :
  revenue (b :: l) = totalAmount b + revenue l.
Proof. unfold revenue at 1. simpl. rewrite fold_sum_shift. lia. Qed.

Lemma in_month_earns (m y : Z) (b : Booking) :
  in_month m y b = true -> earns b = true.
Proof.
  unfold in_month. destruct (Date_parse (createdAt b)); [ discriminate | ].
  intros H. apply andb_true_iff in H. tauto.
Qed.

(** The monthly filter selects among the bookings the total counts. *)
Lemma monthly_filter_within_total (m y : Z) (l : list Booking) :
  List.filter (in_month m y) l = List.filter (in_month m y) (List.filter earns l).
Proof.
  induction l as [ | b l IH ]; simpl; [ reflexivity | ].
  destruct (in_month m y b) eqn:Hm.
  - rewrite (in_month_earns m y b Hm). simpl. rewrite Hm. now f_equal.
  - destruct (earns b); simpl; [ rewrite Hm | ]; exact IH.
Qed.

Lemma loadDashboardStats_online (w : World State) :
  (forall k, outage (env w) k = false) ->
  stats (page (exec loadDashboardStats w)) =
    {| totalBikes := Z.of_nat (length (bikes (env w)));
       availableBikes :=
         Z.of_nat (length (List.filter (fun b => 0 <? isAvailable b) (bikes (env w))));
       totalBookings := Z.of_nat (length (bookings (env w)));
       pendingBookings :=
         Z.of_nat (length (List.filter (fun b => bool_decide (status b = "pending"))
                                       (bookings (env w))));
       totalRevenue := total_of (bookings (env w));
       monthlyRevenue := monthly_of (now (env w)) (bookings (env w)) |}.
Proof.
  intros Hup. unfold exec, loadDashboardStats, db.bikes_list, db.bookings_list.
  assert (Hbikes : forall l, List.filter (db.bike_where None) l = l).
  { induction l as [ | x l IH ]; simpl; congruence. }
  assert (Hbookings : forall l, List.filter (db.booking_where None) l = l).
  { induction l as [ | x l IH ]; simpl; congruence. }
  run_handler. rewrite Hup. simpl. rewrite Hup. simpl.
  rewrite Hbikes, Hbookings. reflexivity.
Qed.

(** C10 as written: whatever the bookings, the month earns no more than the
    whole. *)
Definition monthly_within_total (clock : Z) (l : list Booking) : Prop :=
  monthly_of clock l <= total_of l.

(** C10, amended. Both figures are sums of [totalAmount] over the bookings
    with status [approved] or [completed], the monthly one over those of them
    created in the current month and year; when none of the counted amounts is
    negative the monthly revenue is at most the total revenue, and these are
    the figures the dashboard stores. *)
Theorem monthly_revenue_bounded (w : World State) :
  (forall b, In b (bookings (env w)) -> earns b = true -> 0 <= totalAmount b) ->
  let l := bookings (env w) in
  let clock := now (env w) in
  monthly_of clock l <= total_of l
  /\ monthly_of clock l =
       revenue (List.filter (in_month (getMonth clock) (getFullYear clock))
                            (List.filter earns l))
  /\ ((forall k, outage (env w) k = false) ->
      let shown := stats (page (exec loadDashboardStats w)) in
      totalRevenue shown = total_of l
      /\ monthlyRevenue shown = monthly_of clock l
      /\ monthlyRevenue shown <= totalRevenue shown).
Proof.
  intros Hpos l clock.
  assert (Hle : monthly_of clock l <= total_of l).
  { unfold monthly_of, total_of. subst l.
    induction (bookings (env w)) as [ | b rest IH ]; simpl; [ reflexivity | ].
    assert (IH' : revenue (List.filter (in_month (getMonth clock) (getFullYear clock)) rest)
                  <= revenue (List.filter earns rest)).
    { apply IH. intros b' Hin. apply Hpos. now right. }
    destruct (in_month (getMonth clock) (getFullYear clock) b) eqn:Hm.
    - rewrite (in_month_earns _ _ b Hm). rewrite !revenue_cons. lia.
    - destruct (earns b) eqn:He; [ | exact IH' ].
      rewrite revenue_cons.
      assert (0 <= totalAmount b) by (apply Hpos; [ now left | exact He ]). lia. }
  split; [ exact Hle | split ].
  - unfold monthly_of. now rewrite <- monthly_filter_within_total.
  - intros Hup shown. subst shown. rewrite (loadDashboardStats_online w Hup). simpl.
    repeat split. exact Hle.
Qed.

End WithRuntime.

(** *** A refund-like booking from an earlier month, in the UTC runtime *)

Definition negative_booking : Booking :=
  mkBooking "booking_1_a" "u-bob" "bike-9" "instant"
    "2024-03-02T09:00:00.000Z" "2024-03-02T11:00:00.000Z" (-10) "approved"
    "Bob" "bob@example.org" "555-0100" "" "2024-03-02T08:59:00.000Z"
    None None None None None None None.

(** 1714557600000 is 2024-05-01T10:00Z. *)
Definition may_env (l : list Booking) : Env :=
  mkEnv [] [] l [] [] [] [] (fun _ => false) 1714557600000 "k3x9q2m1z".

(** C10 as written fails: a bike with a negative hourly rate yields an
    approved booking of negative amount; booked in March, in May it lowers the
    total to -10 while the month stands at 0. *)
Lemma monthly_revenue_counterexample :
  @monthly_of utc_runtime 1714557600000 [negative_booking] = 0
  /\ total_of [negative_booking] = -10
  /\ ~ @monthly_within_total utc_runtime 1714557600000 [negative_booking].
Proof.
  assert (Hm : @monthly_of utc_runtime 1714557600000 [negative_booking] = 0)
    by (vm_compute; reflexivity).
  assert (Ht : total_of [negative_booking] = -10) by (vm_compute; reflexivity).
  split; [ exact Hm | split; [ exact Ht | ] ].
  unfold monthly_within_total. rewrite Hm, Ht. lia.
Qed.

Definition may_booking : Booking :=
  mkBooking "booking_2_b" "u-bob" "bike-7" "instant"
    "2024-05-01T08:00:00.000Z" "2024-05-01T10:00:00.000Z" 30 "approved"
    "Bob" "bob@example.org" "555-0100" "" "2024-05-01T07:59:00.000Z"
    None None None None None None None.

Definition march_booking : Booking :=
  mkBooking "booking_3_c" "u-bob" "bike-7" "pre_reservation"
    "2024-03-10T08:00:00.000Z" "2024-03-11T08:00:00.000Z" 90 "completed"
    "Bob" "bob@example.org" "555-0100" "" "2024-03-09T12:00:00.000Z"
    None None None None None None None.

Lemma monthly_revenue_bounded_witness :
  monthlyRevenue (stats (page (exec (@loadDashboardStats utc_runtime)
                    (mkWorld initial (may_env [may_booking; march_booking]))))) = 30
  /\ totalRevenue (stats (page (exec (@loadDashboardStats utc_runtime)
                    (mkWorld initial (may_env [may_booking; march_booking]))))) = 120
  /\ @monthly_of utc_runtime 1714557600000 [may_booking; march_booking] <=
     total_of [may_booking; march_booking].
Proof.
  assert (Hpos : forall b,
            In b (bookings (env (mkWorld initial (may_env [may_booking; march_booking])))) ->
            earns b = true -> 0 <= totalAmount b).
  { intros b [ <- | [ <- | [] ] ] _; simpl; lia. }
  destruct (@monthly_revenue_bounded utc_runtime
              (mkWorld initial (may_env [may_booking; march_booking])) Hpos)
    as (Hle & _ & Hshown).
  split; [ vm_compute; reflexivity | split; [ vm_compute; reflexivity | exact Hle ] ].
Defined.

End AdminDashboard.

(** ** AdminSetup.tsx: failures and repeated requests *)

Module AdminAccess.
Import AdminSetup.

(** X1. A correct setup code whose create call is refused grants nothing: the
    handler returns normally, no record is added, the route stays, the failure
    is logged and shown as the destructive "Setup Failed" toast, the button is
    released, and the call was made once. *)
Theorem setup_store_failure (user : User) (w : World State) :
  adminCode (page w) = ADMIN_SETUP_CODE ->
  outage (env w) (length (calls (env w))) = true ->
  let w' := exec (handleSetupAdmin user) w in
  fst (handleSetupAdmin user w) = Returned tt
  /\ admin_users (env w') = admin_users (env w)
  /\ visited (env w') = visited (env w)
  /\ toasts (env w') = toasts (env w) ++ [setup_failed_toast]
  /\ console (env w') = console (env w) ++ ["Error setting up admin:"]
  /\ calls (env w') =
       calls (env w) ++ [AdminCreate (mkAdminUser (uid user) "admin")]
  /\ isLoading (page w') = false.
Proof.
  intros Hcode Hout w'. subst w'.
  unfold handleSetupAdmin, db.admin_users_create. run_handler.
  rewrite bool_decide_eq_false_2 by (intros H; apply H, Hcode).
  simpl. rewrite Hout. simpl. repeat split.
Qed.

Lemma setup_store_failure_witness :
  admin_users (env (exec (handleSetupAdmin bob)
                     (mkWorld (setAdminCode "BIKERIDE2024" initial)
                              BookingPage.offline_env))) =
    [mkAdminUser "u-alice" "admin"]
  /\ toasts (env (exec (handleSetupAdmin bob)
                    (mkWorld (setAdminCode "BIKERIDE2024" initial)
                             BookingPage.offline_env))) = [setup_failed_toast].
Proof.
  destruct (setup_store_failure bob
              (mkWorld (setAdminCode "BIKERIDE2024" initial) BookingPage.offline_env)
              eq_refl eq_refl)
    as (_ & Hadm & _ & Ht & _).
  split; [ exact Hadm | exact Ht ].
Defined.

(** The two ways a request for access can fail at the store. *)
Definition request_refused (user : User) (e : Env) : Prop :=
  outage e (length (calls e)) = true
  \/ (outage e (length (calls e)) = false
      /\ List.filter (db.admin_where (Some (uid user))) (admin_users e) = []
      /\ outage e (S (length (calls e))) = true).

(** X2. When the lookup or the insert of a request for access is refused, the
    handler returns normally, no record is added, the route stays, and the
    destructive "Access Denied" toast is the only toast; loading ends. *)
Theorem request_access_failure (user : User) (w : World State) :
  request_refused user (env w) ->
  let w' := exec (handleBecomeAdmin user) w in
  fst (handleBecomeAdmin user w) = Returned tt
  /\ admin_users (env w') = admin_users (env w)
  /\ visited (env w') = visited (env w)
  /\ toasts (env w') = toasts (env w) ++ [access_denied_toast]
  /\ console (env w') = console (env w) ++ ["Error becoming admin:"]
  /\ isLoading (page w') = false.
Proof.
  intros Href w'. subst w'.
  unfold handleBecomeAdmin, db.admin_users_list, db.admin_users_create. run_handler.
  destruct Href as [ Hout | (Hup & Hnone & Hout) ].
  - rewrite Hout. simpl. repeat split.
  - rewrite Hup. simpl. rewrite Hnone. simpl.
    rewrite length_app, Nat.add_1_r, Hout. simpl. repeat split.
Qed.

Definition flaky_env : Env :=
  mkEnv [mkAdminUser "u-alice" "admin"] [] [] [] [] [] []
        (fun k => bool_decide (k = 1%nat)) 0 "k3x9q2m1z".

Lemma request_access_failure_witness :
  admin_users (env (exec (handleBecomeAdmin bob) (mkWorld initial flaky_env))) =
    [mkAdminUser "u-alice" "admin"]
  /\ length (calls (env (exec (handleBecomeAdmin bob) (mkWorld initial flaky_env)))) = 2%nat.
Proof.
  assert (Href : request_refused bob (env (mkWorld initial flaky_env)))
    by (right; repeat split).
  destruct (request_access_failure bob (mkWorld initial flaky_env) Href)
    as (_ & Hadm & _).
  split; [ exact Hadm | vm_compute; reflexivity ].
Defined.

Lemma after_request_has_admin (user : User) (e : Env) :
  List.filter (db.admin_where (Some (uid user))) (admin_users (after_request user e)) <> [].
Proof.
  unfold after_request.
  destruct (List.filter (db.admin_where (Some (uid user))) (admin_users e))
    as [ | a rest ] eqn:Hmine; simpl.
  - rewrite List.filter_app. simpl.
    rewrite bool_decide_eq_true_2 by reflexivity.
    intros H. apply app_eq_nil in H. destruct H as [ _ H ]. discriminate.
  - rewrite Hmine. discriminate.
Qed.

Lemma after_request_outage (user : User) (e : Env) :
  outage (after_request user e) = outage e.
Proof.
  unfold after_request.
  destruct (List.filter (db.admin_where (Some (uid user))) (admin_users e)); reflexivity.
Qed.

(** X3. Requesting access twice inserts at most once: with the store
    reachable, the second press finds the record of the first (or the one that
    was there), adds nothing and answers "Already Admin". *)
Theorem request_twice_inserts_once (user : User) (w : World State) :
  (forall k, outage (env w) k = false) ->
  let w1 := exec (handleBecomeAdmin user) w in
  let w2 := exec (handleBecomeAdmin user) w1 in
  admin_users (env w2) = admin_users (env w1)
  /\ toasts (env w2) = toasts (env w1) ++ [already_admin_toast]
  /\ (List.filter (db.admin_where (Some (uid user))) (admin_users (env w)) = [] ->
      List.filter (db.admin_where (Some (uid user))) (admin_users (env w2)) =
        [mkAdminUser (uid user) "admin"]).
Proof.
  intros Hup w1 w2.
  assert (H1 : w1 = mkWorld (setIsLoading false (setIsLoading true (page w)))
                            (after_request user (env w))).
  { subst w1. unfold exec. now rewrite handleBecomeAdmin_up by apply Hup. }
  assert (Hup1 : forall k, outage (env w1) k = false).
  { intros k. rewrite H1. simpl. rewrite after_request_outage. apply Hup. }
  assert (H2 : w2 = mkWorld (setIsLoading false (setIsLoading true (page w1)))
                            (after_request user (env w1))).
  { subst w2. unfold exec. now rewrite handleBecomeAdmin_up by apply Hup1. }
  assert (He1 : env w1 = after_request user (env w)) by now rewrite H1.
  pose proof (after_request_has_admin user (env w)) as Hhas.
  rewrite <- He1 in Hhas.
  assert (Hsecond : admin_users (env w2) = admin_users (env w1)
                    /\ toasts (env w2) = toasts (env w1) ++ [already_admin_toast]).
  { rewrite H2. simpl. unfold after_request.
    destruct (List.filter (db.admin_where (Some (uid user))) (admin_users (env w1)));
      [ contradiction | ].
    split; reflexivity. }
  destruct Hsecond as (Hadm & Htoast).
  split; [ exact Hadm | split; [ exact Htoast | ] ].
  intros Hnone. rewrite Hadm, He1. unfold after_request. rewrite Hnone. simpl.
  rewrite List.filter_app, Hnone. simpl.
  now rewrite bool_decide_eq_true_2 by reflexivity.
Qed.

Lemma request_twice_inserts_once_witness :
  admin_users (env (exec (handleBecomeAdmin bob)
                     (exec (handleBecomeAdmin bob) (mkWorld initial demo_env)))) =
    [mkAdminUser "u-alice" "admin"; mkAdminUser "u-bob" "admin"].
Proof.
  assert (Hup : forall k, outage (env (mkWorld initial demo_env)) k = false)
    by reflexivity.
  destruct (request_twice_inserts_once bob (mkWorld initial demo_env) Hup)
    as (Hsame & _).
  rewrite Hsame. vm_compute. reflexivity.
Defined.

(** X4. When the check for existing admins fails, the error is only logged:
    [hasAdmins] keeps its value, so a freshly mounted card offers the
    first-admin form even though admin records exist. *)
Theorem failed_check_offers_setup (w : World State) :
  outage (env w) (length (calls (env w))) = true ->
  let w' := exec checkExistingAdmins w in
  fst (checkExistingAdmins w) = Returned tt
  /\ hasAdmins (page w') = hasAdmins (page w)
  /\ checkingAdmins (page w') = false
  /\ render (page w') = (if hasAdmins (page w) then RequestAccessButton else SetupForm)
  /\ (page w = initial -> render (page w') = SetupForm)
  /\ console (env w') = console (env w) ++ ["Error checking admins:"]
  /\ toasts (env w') = toasts (env w)
  /\ admin_users (env w') = admin_users (env w).
Proof.
  intros Hout w'. subst w'.
  unfold checkExistingAdmins, db.admin_users_list. run_handler.
  rewrite Hout. simpl. unfold render. simpl.
  split; [ reflexivity | ]. split; [ reflexivity | ]. split; [ reflexivity | ].
  split; [ now destruct (hasAdmins (page w)) | ].
  split; [ intros ->; reflexivity | ].
  repeat split.
Qed.

Lemma failed_check_offers_setup_witness :
  admin_users BookingPage.offline_env = [mkAdminUser "u-alice" "admin"]
  /\ render (page (exec checkExistingAdmins (mkWorld initial BookingPage.offline_env))) =
       SetupForm.
Proof.
  destruct (failed_check_offers_setup (mkWorld initial BookingPage.offline_env) eq_refl)
    as (_ & _ & _ & _ & Hfresh & _).
  split; [ reflexivity | exact (Hfresh eq_refl) ].
Defined.

End AdminAccess.

(** ** BookingPage.tsx: loading the bike, unusable dates, what a submission
    can do at most *)

Module BookingForm.
Import BookingPage.

Definition setLoading (v : bool) (s : State) : State :=
  mkState (bike s) v (submitting s) (user s) (bookingType s) (startDate s)
    (startTime s) (duration s) (durationType s) (customerName s) (customerEmail s)
    (customerPhone s) (notes s).

Definition bike_not_found_toast : Toast :=
  mkToast "Bike not found" "The requested bike could not be found." destructive.
Definition bike_load_failed_toast : Toast :=
  mkToast "Error" "Failed to load bike details." destructive.

(** [bikeId] comes from the route; it may be missing. *)
Definition loadBike (bikeId : option string) : Eff State unit :=
  match bikeId with
  | None => ret tt
  | Some i =>
      if decide (i = "") then ret tt
      else
        try_catch_finally
          (found ← db.bikes_list (Some i);
           match found with
           | [] =>
               toast bike_not_found_toast;;
               navigate "/browse"
           | first :: _ => set_page (setBike (Some first))
           end)
          (fun _ =>
             console_error "Error loading bike:";;
             toast bike_load_failed_toast)
          (set_page (setLoading false))
  end.

(** X5. With the store reachable, loading a bike by a non-empty id either
    finds a stored bike with that id and puts it in the form without any toast
    or navigation, or finds none, leaves the form's bike as it was, shows
    "Bike not found" and sends the visitor to the catalog; loading ends in
    both cases and the store is not changed. *)
Theorem loadBike_found_or_redirected (i : string) (w : World State) :
  i <> "" ->
  outage (env w) (length (calls (env w))) = false ->
  let w' := exec (loadBike (Some i)) w in
  let matching := List.filter (db.bike_where (Some i)) (bikes (env w)) in
  loading (page w') = false
  /\ bikes (env w') = bikes (env w)
  /\ (forall b, In b (bikes (env w)) -> bike_id b = i ->
        exists first,
          bike (page w') = Some first /\ In first (bikes (env w)) /\ bike_id first = i
          /\ List.head matching = Some first
          /\ toasts (env w') = toasts (env w) /\ visited (env w') = visited (env w))
  /\ ((forall b, In b (bikes (env w)) -> bike_id b <> i) ->
        bike (page w') = bike (page w)
        /\ toasts (env w') = toasts (env w) ++ [bike_not_found_toast]
        /\ visited (env w') = visited (env w) ++ ["/browse"]).
Proof.
  intros Hi Hup w' matching. subst w'.
  unfold loadBike, db.bikes_list. rewrite decide_False by exact Hi.
  run_handler. rewrite Hup. simpl. fold matching.
  destruct matching as [ | first rest ] eqn:Hm; simpl.
  - split; [ reflexivity | split; [ reflexivity | split ] ].
    + intros b Hin Hid.
      assert (Hb : In b matching).
      { subst matching. apply filter_In. split; [ exact Hin | ].
        simpl. now apply bool_decide_eq_true_2. }
      rewrite Hm in Hb. contradiction.
    + intros _. repeat split.
  - assert (Hf : In first matching) by (rewrite Hm; now left).
    subst matching. apply filter_In in Hf. destruct Hf as (Hin & Hid).
    simpl in Hid. apply bool_decide_eq_true_1 in Hid.
    split; [ reflexivity | split; [ reflexivity | split ] ].
    + intros b _ _. exists first. repeat split; assumption.
    + intros Hnone. exfalso. exact (Hnone first Hin Hid).
Qed.

Definition garage_env : Env :=
  mkEnv [] [trailblazer] [] [] [] [] [] (fun _ => false) 0 "k3x9q2m1z".

Definition blank_form : State :=
  mkState None true false None instant "" "" 1 hours "" "" "" "".

Lemma loadBike_found_or_redirected_witness :
  bike (page (exec (loadBike (Some "bike-7")) (mkWorld blank_form garage_env))) =
    Some trailblazer
  /\ visited (env (exec (loadBike (Some "bike-0")) (mkWorld blank_form garage_env))) =
       ["/browse"].
Proof.
  assert (H7 : "bike-7" <> "") by discriminate.
  assert (H0 : "bike-0" <> "") by discriminate.
  destruct (loadBike_found_or_redirected "bike-7" (mkWorld blank_form garage_env)
              H7 eq_refl) as (_ & _ & Hfound & _).
  destruct (loadBike_found_or_redirected "bike-0" (mkWorld blank_form garage_env)
              H0 eq_refl) as (_ & _ & _ & Hmissing).
  split.
  - destruct (Hfound trailblazer (or_introl eq_refl) eq_refl)
      as (first & Hbike & _ & _ & Hhead & _).
    rewrite Hbike. vm_compute in Hhead. injection Hhead as <-. reflexivity.
  - apply Hmissing.
    intros b [ <- | [] ]. discriminate.
Defined.

Section WithRuntime.
Context {rt : DateRuntime}.

(** A form with bike and user whose start cannot be used. *)
Definition unusable_start (s : State) : Prop :=
  startDate s = "" \/ startTime s = "" \/ Date_parse (start_text s) = InvalidDate.

Lemma handleSubmit_unusable (w : World State) (u : User) (b : Bike) :
  bike (page w) = Some b -> user (page w) = Some u ->
  unusable_start (page w) ->
  handleSubmit w =
    (Returned tt,
     mkWorld (setSubmitting false (setSubmitting true (page w)))
       (with_toasts (toasts (env w) ++ [failed_toast])
          (with_console (console (env w) ++ ["Error creating booking:"]) (env w)))).
Proof.
  intros Hb Hu Hbad.
  unfold handleSubmit, calculateEndDateTime. run_handler. rewrite Hb, Hu.
  destruct (decide (startDate (page w) = "")) as [ Hd | Hd ].
  { rewrite (bool_decide_eq_true_2 _ Hd). reflexivity. }
  destruct (decide (startTime (page w) = "")) as [ Ht | Ht ].
  { rewrite (bool_decide_eq_true_2 _ Ht), orb_true_r. reflexivity. }
  destruct Hbad as [ Hbad | [ Hbad | Hbad ] ]; [ contradiction | contradiction | ].
  rewrite !bool_decide_eq_false_2 by assumption. simpl.
  unfold start_text in Hbad. rewrite Hbad. reflexivity.
Qed.

(** X6. A submission whose start date or time is empty, or does not parse
    as a date, never reaches the store: no call is issued, no booking is
    written, the route stays, and the failure is logged and shown as the
    "Booking failed" toast. *)
Theorem unusable_start_is_refused (w : World State) (u : User) (b : Bike) :
  bike (page w) = Some b -> user (page w) = Some u ->
  unusable_start (page w) ->
  let w' := exec handleSubmit w in
  calls (env w') = calls (env w)
  /\ bookings (env w') = bookings (env w)
  /\ visited (env w') = visited (env w)
  /\ toasts (env w') = toasts (env w) ++ [failed_toast]
  /\ console (env w') = console (env w) ++ ["Error creating booking:"]
  /\ submitting (page w') = false.
Proof.
  intros Hb Hu Hbad w'. subst w'. unfold exec.
  rewrite (handleSubmit_unusable w u b Hb Hu Hbad). simpl. repeat split.
Qed.

(** X7. Whatever the form holds, a submission returns normally, issues at
    most one call to the store, and changes neither bikes nor admins; without
    a bike or a user it does nothing at all, and otherwise it leaves
    [submitting] off. *)
Theorem submit_is_contained (w : World State) :
  let w' := exec handleSubmit w in
  fst (handleSubmit w) = Returned tt
  /\ (length (calls (env w')) <= S (length (calls (env w))))%nat
  /\ bikes (env w') = bikes (env w)
  /\ admin_users (env w') = admin_users (env w)
  /\ (bike (page w) = None \/ user (page w) = None -> w' = w)
  /\ (bike (page w) <> None -> user (page w) <> None -> submitting (page w') = false).
Proof.
  intros w'. subst w'. unfold exec.
  destruct (bike (page w)) as [ b | ] eqn:Hb.
  2: { unfold handleSubmit. run_handler. rewrite Hb. simpl.
       repeat split; auto; try lia. intros H. now contradiction H. }
  destruct (user (page w)) as [ u | ] eqn:Hu.
  2: { unfold handleSubmit. run_handler. rewrite Hb, Hu. simpl.
       repeat split; auto; try lia. intros _ H. now contradiction H. }
  assert (Hno : Some b = None \/ Some u = None -> False)
    by (intros [ H | H ]; discriminate).
  destruct (decide (startDate (page w) = "")) as [ Hd | Hd ].
  { rewrite (handleSubmit_unusable w u b Hb Hu (or_introl Hd)). simpl.
    repeat split; auto; try lia. intros H. now apply Hno in H. }
  destruct (decide (startTime (page w) = "")) as [ Ht | Ht ].
  { rewrite (handleSubmit_unusable w u b Hb Hu (or_intror (or_introl Ht))). simpl.
    repeat split; auto; try lia. intros H. now apply Hno in H. }
  destruct (Date_parse (start_text (page w))) as [ | t ] eqn:Hp.
  { rewrite (handleSubmit_unusable w u b Hb Hu (or_intror (or_intror Hp))). simpl.
    repeat split; auto; try lia. intros H. now apply Hno in H. }
  assert (Hready : ready (page w) u b t) by (repeat split; assumption).
  rewrite (handleSubmit_ready w u b t Hready). simpl.
  destruct (outage (env w) (length (calls (env w)))); simpl;
    (repeat split; auto; [ rewrite length_app; simpl; lia | intros H; now apply Hno in H ]).
Qed.


End WithRuntime.

Definition undated_form : State :=
  mkState (Some trailblazer) false false (Some bob) pre_reservation
          "" "10:00" 2 hours "Bob" "bob@example.org" "555-0100" "".

Lemma unusable_start_is_refused_witness :
  calls (env (exec (@handleSubmit utc_runtime) (mkWorld undated_form demo_env))) = []
  /\ toasts (env (exec (@handleSubmit utc_runtime) (mkWorld undated_form demo_env))) =
       [failed_toast].
Proof.
  assert (Hbad : @unusable_start utc_runtime (page (mkWorld undated_form demo_env)))
    by (left; reflexivity).
  destruct (@unusable_start_is_refused utc_runtime (mkWorld undated_form demo_env)
              bob trailblazer eq_refl eq_refl Hbad)
    as (Hcalls & _ & _ & Htoast & _).
  split; [ exact Hcalls | exact Htoast ].
Defined.




End BookingForm.

(** ** Loading the booking lists: cost, failures, whose bookings *)

Module BookingLoading.
Import BookingLists.

(** What the lookups cost and what they leave alone. *)
Lemma attachBikes_cost {P : Type} (l : list Booking) (w : World P) :
  exists xs w',
    attachBikes l w = (Returned xs, w')
    /\ length xs = length l
    /\ length (calls (env w')) = (length (calls (env w)) + length l)%nat
    /\ page w' = page w
    /\ toasts (env w') = toasts (env w)
    /\ visited (env w') = visited (env w)
    /\ same_store (env w) (env w').
Proof.
  revert w. induction l as [ | b rest IH ]; intros w.
  - exists [], w. simpl. repeat split; auto.
  - assert (Hstep : exists x w1,
              attachBike b w = (Returned x, w1)
              /\ length (calls (env w1)) = S (length (calls (env w)))
              /\ page w1 = page w /\ toasts (env w1) = toasts (env w)
              /\ visited (env w1) = visited (env w)
              /\ same_store (env w) (env w1)).
    { unfold attachBike, db.bikes_list. run_handler.
      destruct (outage (env w) (length (calls (env w)))); simpl;
        eexists _, _; (split; [ reflexivity | ]); simpl;
        rewrite length_app; simpl; repeat split; lia. }
    destruct Hstep as (x & w1 & Hx & Hc1 & Hp1 & Ht1 & Hv1 & Hs1).
    destruct (IH w1) as (xs & w2 & Hxs & Hlen & Hc2 & Hp2 & Ht2 & Hv2 & Hs2).
    exists (x :: xs), w2. split.
    { simpl. unfold mbind, eff_bind, bind. rewrite Hx. fold (@attachBikes P).
      rewrite Hxs. reflexivity. }
    simpl. repeat split; try congruence; try lia.
    all: eapply same_store_trans; eassumption.
Qed.

Lemma length_insert_desc (b : Booking) (l : list Booking) :
  length (db.insert_desc b l) = S (length l).
Proof.
  induction l as [ | y l IH ]; simpl; [ reflexivity | ].
  destruct (String.ltb (createdAt y) (createdAt b)); simpl; congruence.
Qed.

Lemma length_orderBy (l : list Booking) :
  length (db.orderBy_createdAt_desc l) = length l.
Proof.
  induction l as [ | y l IH ]; simpl; [ reflexivity | ].
  now rewrite length_insert_desc, IH.
Qed.

Lemma filter_bookings_all (l : list Booking) :
  List.filter (db.booking_where None) l = l.
Proof. induction l as [ | y l IH ]; simpl; congruence. Qed.

(** What a reload of the admin list leaves of the page and the world. *)
Lemma BookingManagement_reload_frame (w : World BookingManagement.State) :
  exists w',
    BookingManagement.loadBookings w = (Returned tt, w')
    /\ BookingManagement.processingBookings (page w') =
         BookingManagement.processingBookings (page w)
    /\ BookingManagement.selectedBooking (page w') =
         BookingManagement.selectedBooking (page w)
    /\ BookingManagement.dialogOpen (page w') = BookingManagement.dialogOpen (page w)
    /\ same_store (env w) (env w')
    /\ visited (env w') = visited (env w)
    /\ (length (calls (env w)) < length (calls (env w')))%nat
    /\ (toasts (env w') = toasts (env w)
        \/ toasts (env w') = toasts (env w) ++ [BookingManagement.load_error_toast]).
Proof.
  unfold BookingManagement.loadBookings, db.bookings_list. run_handler.
  destruct (outage (env w) (length (calls (env w)))) eqn:Hout; simpl.
  - eexists. split; [ reflexivity | ]. simpl. rewrite length_app. simpl.
    repeat split; [ lia | now right ].
  - match goal with
    | |- context [ attachBikes ?l ?w0 ] =>
        destruct (attachBikes_cost l w0)
          as (xs & w1 & Hxs & Hlen & Hc & Hp & Ht & Hv & Hs)
    end.
    rewrite Hxs. simpl. eexists. split; [ reflexivity | ]. simpl.
    rewrite Hp. simpl. simpl in Hc, Hv, Hs. rewrite length_app in Hc. simpl in Hc.
    split; [ reflexivity | ]. split; [ reflexivity | ]. split; [ reflexivity | ].
    split; [ exact Hs | ]. split; [ exact Hv | ]. split; [ lia | now left ].
Qed.

(** X9. A load of either list that gets its listing issues one call for
    the listing and one lookup per listed booking, and shows exactly one entry
    per listed booking, whether or not the lookups succeed. *)
Theorem listing_costs_one_lookup_each (user : User) (e : Env)
    (s1 : MyRentals.State) (s2 : BookingManagement.State) :
  outage e (length (calls e)) = false ->
  let w1 := exec (MyRentals.loadBookings user) (mkWorld s1 e) in
  let w2 := exec BookingManagement.loadBookings (mkWorld s2 e) in
  let mine := List.filter (db.booking_where (Some (uid user))) (Host.bookings e) in
  length (MyRentals.bookings (page w1)) = length mine
  /\ length (calls (env w1)) = (length (calls e) + 1 + length mine)%nat
  /\ MyRentals.loading (page w1) = false
  /\ length (BookingManagement.bookings (page w2)) = length (Host.bookings e)
  /\ length (calls (env w2)) = (length (calls e) + 1 + length (Host.bookings e))%nat
  /\ BookingManagement.loading (page w2) = false.
Proof.
  intros Hup w1 w2 mine. subst w1 w2.
  unfold exec, MyRentals.loadBookings, BookingManagement.loadBookings, db.bookings_list.
  run_handler. rewrite Hup. simpl. rewrite filter_bookings_all. fold mine.
  match goal with
  | |- context [ @attachBikes MyRentals.State ?l ?w0 ] =>
      destruct (attachBikes_cost l w0) as (xs & w1 & Hxs & Hlen & Hc & _)
  end.
  match goal with
  | |- context [ @attachBikes BookingManagement.State ?l ?w0 ] =>
      destruct (attachBikes_cost l w0) as (ys & w2 & Hys & Hlen' & Hc' & _)
  end.
  rewrite Hxs, Hys. simpl. simpl in Hc, Hc'.
  rewrite length_app in Hc, Hc'. simpl in Hc, Hc'.
  rewrite length_orderBy in Hlen, Hlen', Hc, Hc'.
  repeat split; try assumption; lia.
Qed.

Lemma listing_costs_one_lookup_each_witness :
  length (calls (env (exec BookingManagement.loadBookings
                        (mkWorld BookingManagement.initial orphan_env)))) = 2%nat.
Proof.
  destruct (listing_costs_one_lookup_each bob orphan_env MyRentals.initial
              BookingManagement.initial eq_refl)
    as (_ & _ & _ & _ & Hcalls & _).
  exact Hcalls.
Defined.

(** X10. When the listing itself is refused, either page keeps the list it
    had, ends loading and logs the error; the admin page also shows the
    destructive "Failed to load bookings." toast, the customer page shows
    none. *)
Theorem refused_listing_keeps_old_list (user : User) (e : Env)
    (s1 : MyRentals.State) (s2 : BookingManagement.State) :
  outage e (length (calls e)) = true ->
  let w1 := exec (MyRentals.loadBookings user) (mkWorld s1 e) in
  let w2 := exec BookingManagement.loadBookings (mkWorld s2 e) in
  MyRentals.bookings (page w1) = MyRentals.bookings s1
  /\ MyRentals.loading (page w1) = false
  /\ toasts (env w1) = toasts e
  /\ console (env w1) = console e ++ ["Error loading bookings:"]
  /\ BookingManagement.bookings (page w2) = BookingManagement.bookings s2
  /\ BookingManagement.loading (page w2) = false
  /\ toasts (env w2) = toasts e ++ [BookingManagement.load_error_toast]
  /\ console (env w2) = console e ++ ["Error loading bookings:"]
  /\ length (calls (env w1)) = S (length (calls e))
  /\ length (calls (env w2)) = S (length (calls e)).
Proof.
  intros Hout w1 w2. subst w1 w2.
  unfold exec, MyRentals.loadBookings, BookingManagement.loadBookings, db.bookings_list.
  run_handler. rewrite Hout. simpl. rewrite !length_app. simpl.
  repeat split; lia.
Qed.

Lemma refused_listing_keeps_old_list_witness :
  toasts (env (exec (MyRentals.loadBookings bob)
                 (mkWorld MyRentals.initial BookingPage.offline_env))) = []
  /\ toasts (env (exec BookingManagement.loadBookings
                    (mkWorld BookingManagement.initial BookingPage.offline_env))) =
       [BookingManagement.load_error_toast].
Proof.
  destruct (refused_listing_keeps_old_list bob BookingPage.offline_env
              MyRentals.initial BookingManagement.initial eq_refl)
    as (_ & _ & Hquiet & _ & _ & _ & Hloud & _).
  split; [ exact Hquiet | exact Hloud ].
Defined.

(** X11. The customer page shows nobody else's bookings: after a load that
    got its listing, every entry is a stored booking of the signed-in user,
    and every stored booking of the user has an entry. *)
Theorem my_rentals_shows_own_bookings (user : User) (w : World MyRentals.State) :
  outage (env w) (length (calls (env w))) = false ->
  let shown := MyRentals.bookings (page (exec (MyRentals.loadBookings user) w)) in
  (forall x, In x shown ->
     userId (booking x) = uid user /\ In (booking x) (Host.bookings (env w)))
  /\ (forall b, In b (Host.bookings (env w)) -> userId b = uid user ->
        exists x, In x shown /\ booking x = b).
Proof.
  intros Hup shown.
  destruct (MyRentals_loadBookings_run user w) as (w' & Hrun & _ & Hloaded).
  specialize (Hloaded Hup). destruct Hloaded as (Hiff & _).
  assert (Hshown : shown = MyRentals.bookings (page w'))
    by (subst shown; unfold exec; now rewrite Hrun).
  rewrite Hshown. split.
  - intros x Hx.
    assert (Hin : In (booking x)
                    (List.filter (db.booking_where (Some (uid user)))
                                 (Host.bookings (env w))))
      by (apply Hiff; exists x; auto).
    apply filter_In in Hin. destruct Hin as (Hin & Hmine). simpl in Hmine.
    apply bool_decide_eq_true_1 in Hmine. auto.
  - intros b Hin Hmine. apply Hiff. apply filter_In. split; [ exact Hin | ].
    simpl. now apply bool_decide_eq_true_2.
Qed.

Definition two_customers_env : Env :=
  mkEnv [] [] [BookingPage.demo_booking; AdminDashboard.negative_booking;
               mkBooking "booking_9_z" "u-carol" "bike-7" "instant"
                 "2024-05-02T10:00:00.000Z" "2024-05-02T12:00:00.000Z" 30 "approved"
                 "Carol" "carol@example.org" "555-0101" "" "2024-05-02T09:00:00.000Z"
                 None None None None None None None]
        [] [] [] [] (fun _ => false) 0 "k3x9q2m1z".

Lemma my_rentals_shows_own_bookings_witness :
  exists x,
    In x (MyRentals.bookings (page (exec (MyRentals.loadBookings bob)
                                      (mkWorld MyRentals.initial two_customers_env))))
    /\ booking x = BookingPage.demo_booking.
Proof.
  destruct (my_rentals_shows_own_bookings bob
              (mkWorld MyRentals.initial two_customers_env) eq_refl) as (_ & Hall).
  apply Hall; [ now left | reflexivity ].
Defined.




End BookingLoading.

(** ** BookingManagement.tsx: verdicts, refused writes, the status dialog,
    the tabs *)

Module BookingAdmin.
Import BookingManagement.

Definition action_success_toast (action : Action) : Toast :=
  mkToast "Success"
    ("Booking " +:+ match action with
                    | approve => "approved"
                    | reject => "rejected"
                    end +:+ " and notifications sent!") plain.

Definition action_error_toast (action : Action) : Toast :=
  mkToast "Error" ("Failed to " +:+ action_text action +:+ " booking.") destructive.

Definition status_error_toast (type : UpdateType) : Toast :=
  mkToast "Error" ("Failed to update " +:+ type_text type +:+ " status.") destructive.

Definition verdict (action : Action) : string :=
  match action with
  | approve => "approved"
  | reject => "rejected"
  end.

Lemma In_update_in (target : string) (fields : gmap string string)
    (l : list Booking) (b' : Booking) :
  In b' (db.update_in target fields l) <->
  exists b, In b l
            /\ b' = (if decide (id b = target) then db.apply_fields fields b else b).
Proof.
  unfold db.update_in. rewrite in_map_iff.
  split; intros (b & H1 & H2); exists b; auto.
Qed.

Section WithRuntime.
Context {rt : DateRuntime}.

Lemma action_fields_keep_id (action : Action) (stamp : string) (b : Booking) :
  id (db.apply_fields (actionUpdateData action stamp) b) = id b
  /\ status (db.apply_fields (actionUpdateData action stamp) b) = verdict action
  /\ totalAmount (db.apply_fields (actionUpdateData action stamp) b) = totalAmount b.
Proof.
  unfold db.apply_fields, actionUpdateData.
  destruct action; simpl; simplify_map_eq; repeat split.
Qed.

Lemma handleBookingAction_accepted (bookingId : string) (action : Action)
    (w : World State) :
  outage (env w) (length (calls (env w))) = false ->
  exists w',
    handleBookingAction bookingId action w = (Returned tt, w')
    /\ Host.bookings (env w') =
         db.update_in bookingId (actionUpdateData action (toISOString (now (env w))))
                      (Host.bookings (env w))
    /\ (processingBookings (page w') =
          ((processingBookings (page w) ∪ {[bookingId]}) ∖ {[bookingId]}))
    /\ visited (env w') = visited (env w).
Proof.
  intros Hup. unfold handleBookingAction, db.bookings_update.
  run_handler. rewrite Hup. simpl.
  assert (Hnotify : forall (m : Eff State unit) (w0 : World State),
            (m = ret tt \/ exists x n, m = sendNotifications x n) ->
            exists w1, m w0 = (Returned tt, w1)
                       /\ page w1 = page w0
                       /\ Host.bookings (env w1) = Host.bookings (env w0)
                       /\ visited (env w1) = visited (env w0)).
  { intros m w0 [ -> | (x & n & ->) ].
    - exists w0. repeat split.
    - unfold sendNotifications. run_handler. eexists. repeat split. }
  match goal with
  | |- context [ match List.find ?f ?l with _ => _ end ?w0 ] =>
      destruct (Hnotify (match List.find f l with
                         | Some x => sendNotifications x (notice_of action)
                         | None => ret tt
                         end) w0) as (w1 & Hrun1 & Hp1 & Hb1 & Hv1);
      [ destruct (List.find f l); eauto | rewrite Hrun1 ]
  end.
  match goal with
  | |- context [ loadBookings ?w0 ] =>
      destruct (BookingLoading.BookingManagement_reload_frame w0)
        as (w2 & Hrun2 & Hpr & _ & _ & Hs2 & Hv2 & _);
      rewrite Hrun2
  end.
  simpl. eexists. split; [ reflexivity | ]. simpl.
  simpl in Hpr, Hs2, Hv2.
  destruct Hs2 as (_ & _ & Hb2 & _). simpl in Hb2.
  rewrite Hb2, Hb1, Hpr, Hp1, Hv2, Hv1. simpl. repeat split.
Qed.

(** X12. An accepted approve or reject writes the verdict on the bookings
    with the given id and on nothing else: ids and amounts are as before, the
    others are untouched, the route stays, and the id is no longer marked as
    being processed. *)
Theorem booking_action_accepted (bookingId : string) (action : Action)
    (w : World State) :
  outage (env w) (length (calls (env w))) = false ->
  let w' := exec (handleBookingAction bookingId action) w in
  fst (handleBookingAction bookingId action w) = Returned tt
  /\ List.map id (Host.bookings (env w')) = List.map id (Host.bookings (env w))
  /\ List.map totalAmount (Host.bookings (env w')) =
       List.map totalAmount (Host.bookings (env w))
  /\ (forall b', In b' (Host.bookings (env w')) -> id b' = bookingId ->
        status b' = verdict action)
  /\ (forall b, id b <> bookingId ->
        In b (Host.bookings (env w)) <-> In b (Host.bookings (env w')))
  /\ (bookingId ∉ processingBookings (page w'))
  /\ visited (env w') = visited (env w).
Proof.
  intros Hup w'. subst w'.
  destruct (handleBookingAction_accepted bookingId action w Hup)
    as (w' & Hrun & Hstore & Hproc & Hv).
  unfold exec. rewrite Hrun. simpl. rewrite Hstore, Hproc.
  set (fields := actionUpdateData action (toISOString (now (env w)))).
  split; [ reflexivity | ].
  split.
  { unfold db.update_in. rewrite List.map_map. apply List.map_ext. intros b.
    case_decide; [ apply action_fields_keep_id | reflexivity ]. }
  split.
  { unfold db.update_in. rewrite List.map_map. apply List.map_ext. intros b.
    case_decide; [ apply action_fields_keep_id | reflexivity ]. }
  split.
  { intros b' Hin Hid. apply In_update_in in Hin. destruct Hin as (b & _ & ->).
    case_decide as Hb.
    - apply action_fields_keep_id.
    - contradiction. }
  split.
  { intros b Hne. rewrite In_update_in. split.
    - intros Hin. exists b. split; [ exact Hin | ]. now rewrite decide_False.
    - intros (b0 & Hin & Heq). case_decide as Hb0.
      + exfalso. apply Hne. rewrite Heq.
        destruct (action_fields_keep_id action (toISOString (now (env w))) b0)
          as (Hid & _).
        fold fields in Hid. congruence.
      + now subst b. }
  split; [ | exact Hv ].
  intros Hin. apply elem_of_difference in Hin. destruct Hin as (_ & Hn).
  apply Hn. now apply elem_of_singleton.
Qed.

(** X13. A refused write changes nothing in the store and is reported once:
    for a verdict and for a delivery or return update alike the bookings are
    as before, the destructive error toast is the only new toast, one call was
    made and no reload follows, the loaded list stays, the dialog stays as it
    was, and the id is no longer marked as being processed.  Without a
    selected booking a status update does nothing at all. *)
Theorem refused_write_changes_nothing (bookingId : string) (action : Action)
    (type : UpdateType) (w : World State) :
  outage (env w) (length (calls (env w))) = true ->
  let w1 := exec (handleBookingAction bookingId action) w in
  let w2 := exec (handleStatusUpdate type) w in
  (Host.bookings (env w1) = Host.bookings (env w)
   /\ toasts (env w1) = toasts (env w) ++ [action_error_toast action]
   /\ length (calls (env w1)) = S (length (calls (env w)))
   /\ bookings (page w1) = bookings (page w)
   /\ bookingId ∉ processingBookings (page w1))
  /\ (selectedBooking (page w) = None -> w2 = w)
  /\ (forall sel, selectedBooking (page w) = Some sel ->
        Host.bookings (env w2) = Host.bookings (env w)
        /\ toasts (env w2) = toasts (env w) ++ [status_error_toast type]
        /\ length (calls (env w2)) = S (length (calls (env w)))
        /\ bookings (page w2) = bookings (page w)
        /\ dialogOpen (page w2) = dialogOpen (page w)
        /\ id (booking sel) ∉ processingBookings (page w2)).
Proof.
  intros Hout w1 w2. subst w1 w2. split; [ | split ].
  - unfold exec, handleBookingAction, db.bookings_update. run_handler.
    rewrite Hout. simpl. rewrite length_app. simpl.
    repeat split; try lia.
    intros Hin. apply elem_of_difference in Hin. destruct Hin as (_ & Hn).
    apply Hn. now apply elem_of_singleton.
  - intros Hnone. unfold exec, handleStatusUpdate. run_handler.
    rewrite Hnone. simpl. now destruct w.
  - intros sel Hsel. unfold exec, handleStatusUpdate, db.bookings_update. run_handler.
    rewrite Hsel, Hout. simpl. rewrite length_app. simpl.
    repeat split; try lia.
    intros Hin. apply elem_of_difference in Hin. destruct Hin as (_ & Hn).
    apply Hn. now apply elem_of_singleton.
Qed.

End WithRuntime.

(** *** A pending booking judged in the UTC runtime *)

Definition pending_booking : Booking :=
  mkBooking "booking_5_p" "u-bob" "bike-7" "pre_reservation"
    "2024-06-01T09:00:00.000Z" "2024-06-02T09:00:00.000Z" 90 "pending"
    "Bob" "bob@example.org" "555-0100" "" "2024-05-20T09:00:00.000Z"
    None None None None None None None.

Definition desk_env (refuse : bool) : Env :=
  mkEnv [] [BookingPage.trailblazer] [pending_booking; BookingPage.demo_booking]
        [] [] [] [] (fun _ => refuse) 1714557600000 "k3x9q2m1z".

Lemma booking_action_accepted_witness :
  List.map status
    (Host.bookings (env (exec (@handleBookingAction utc_runtime "booking_5_p" approve)
                              (mkWorld initial (desk_env false))))) =
    ["approved"; "approved"]
  /\ "booking_5_p" ∉
       processingBookings (page (exec (@handleBookingAction utc_runtime "booking_5_p" approve)
                                      (mkWorld initial (desk_env false)))).
Proof.
  destruct (@booking_action_accepted utc_runtime "booking_5_p" approve
              (mkWorld initial (desk_env false)) eq_refl)
    as (_ & _ & _ & _ & _ & Hfree & _).
  split; [ vm_compute; reflexivity | exact Hfree ].
Defined.

Lemma refused_write_changes_nothing_witness :
  List.map status
    (Host.bookings (env (exec (@handleBookingAction utc_runtime "booking_5_p" reject)
                              (mkWorld initial (desk_env true))))) =
    ["pending"; "approved"]
  /\ toasts (env (exec (@handleBookingAction utc_runtime "booking_5_p" reject)
                     (mkWorld initial (desk_env true)))) =
       [mkToast "Error" "Failed to reject booking." destructive].
Proof.
  destruct (@refused_write_changes_nothing utc_runtime "booking_5_p" reject delivery
              (mkWorld initial (desk_env true)) eq_refl)
    as ((Hstore & Htoast & _) & _).
  split; [ now rewrite Hstore | exact Htoast ].
Defined.



(** X15. The four status tabs and the rest divide the loaded bookings: each
    tab holds exactly the entries with its status, and the sizes of the four
    tabs and of the entries with any other status add up to the size of the
    "All" tab. *)
Theorem tabs_divide_bookings (s : State) :
  let tab st := filterBookings (Some st) s in
  let other x :=
    negb (bool_decide (status (booking x) = "pending"))
    && negb (bool_decide (status (booking x) = "approved"))
    && negb (bool_decide (status (booking x) = "rejected"))
    && negb (bool_decide (status (booking x) = "completed")) in
  filterBookings None s = bookings s
  /\ (forall st x, st <> "" -> (In x (tab st) <-> In x (bookings s) /\ status (booking x) = st))
  /\ (length (tab "pending") + length (tab "approved") + length (tab "rejected")
      + length (tab "completed") + length (List.filter other (bookings s))
      = length (bookings s))%nat.
Proof.
  intros tab other. subst tab. unfold filterBookings.
  split; [ reflexivity | split ].
  - intros st x Hst. rewrite decide_False by exact Hst.
    rewrite filter_In. now rewrite bool_decide_eq_true.
  - simpl. subst other.
    induction (bookings s) as [ | x l IH ]; simpl; [ reflexivity | ].
    repeat case_bool_decide; simpl; try congruence; lia.
Qed.

Definition tab_cards (v : ListView) : list Card :=
  match v with
  | NoBookingsFound => []
  | Cards cs => cs
  end.

Lemma cards_of_list (sa su : bool) (l : list BookingWithBike) :
  tab_cards (BookingsList sa su l) =
  List.map (fun x =>
              let st := status (booking x) in
              mkCard (card_title x) (getStatusText st)
                (sa && bool_decide (st = "pending"))
                ((su || bool_decide (st = "approved"))
                 && negb (bool_decide (st = "rejected")))) l.
Proof. destruct l; reflexivity. Qed.

(** X16. Which buttons the tabs offer: every card of the "Pending" tab
    offers approve and reject and no status update; every card of the
    "Approved" tab offers the status update and no verdict; the "Completed"
    and "Rejected" tabs offer nothing; the "All" tab never offers a verdict
    and offers the status update for exactly the bookings that are not
    rejected, pending ones included. *)
Theorem tab_buttons (s : State) :
  let tab st := filterBookings (Some st) s in
  Forall (fun c => offers_approval c = true /\ offers_status_update c = false)
         (tab_cards (BookingsList true false (tab "pending")))
  /\ Forall (fun c => offers_approval c = false /\ offers_status_update c = true)
            (tab_cards (BookingsList false true (tab "approved")))
  /\ Forall (fun c => offers_approval c = false /\ offers_status_update c = false)
            (tab_cards (BookingsList false false (tab "completed")))
  /\ Forall (fun c => offers_approval c = false /\ offers_status_update c = false)
            (tab_cards (BookingsList false false (tab "rejected")))
  /\ Forall2 (fun x c => offers_approval c = false
                         /\ (offers_status_update c = true <->
                             status (booking x) <> "rejected"))
             (bookings s) (tab_cards (BookingsList false true (bookings s))).
Proof.
  intros tab. subst tab. unfold filterBookings. simpl.
  rewrite !cards_of_list.
  repeat split.
  - apply List.Forall_forall. intros c Hc. apply in_map_iff in Hc.
    destruct Hc as (x & <- & Hx). apply filter_In in Hx. destruct Hx as (_ & Hst).
    apply bool_decide_eq_true_1 in Hst. simpl. rewrite Hst. split; reflexivity.
  - apply List.Forall_forall. intros c Hc. apply in_map_iff in Hc.
    destruct Hc as (x & <- & Hx). apply filter_In in Hx. destruct Hx as (_ & Hst).
    apply bool_decide_eq_true_1 in Hst. simpl. rewrite Hst. split; reflexivity.
  - apply List.Forall_forall. intros c Hc. apply in_map_iff in Hc.
    destruct Hc as (x & <- & Hx). apply filter_In in Hx. destruct Hx as (_ & Hst).
    apply bool_decide_eq_true_1 in Hst. simpl. rewrite Hst. split; reflexivity.
  - apply List.Forall_forall. intros c Hc. apply in_map_iff in Hc.
    destruct Hc as (x & <- & Hx). apply filter_In in Hx. destruct Hx as (_ & Hst).
    apply bool_decide_eq_true_1 in Hst. simpl. rewrite Hst. split; reflexivity.
  - induction (bookings s) as [ | x l IH ]; simpl; constructor; [ | exact IH ].
    simpl. split; [ reflexivity | ].
    case_bool_decide; simpl; split; congruence.
Qed.

Definition status_success_toast (type : UpdateType) : Toast :=
  mkToast "Success"
    (match type with delivery => "Delivery" | return_ => "Return" end
     +:+ " status updated successfully!") plain.

(** X26. An accepted delivery or return update returns normally, closes the
    dialog, shows the success toast, leaves the route alone, and the booking
    is no longer marked as being processed; the selection itself is kept. *)
Theorem status_update_accepted {rt : DateRuntime} (type : UpdateType)
    (w : World State) (sel : BookingWithBike) :
  selectedBooking (page w) = Some sel ->
  outage (env w) (length (calls (env w))) = false ->
  let w' := exec (handleStatusUpdate type) w in
  fst (handleStatusUpdate type w) = Returned tt
  /\ dialogOpen (page w') = false
  /\ (id (booking sel) ∉ processingBookings (page w'))
  /\ selectedBooking (page w') = Some sel
  /\ In (status_success_toast type) (toasts (env w'))
  /\ visited (env w') = visited (env w).
Proof.
  intros Hsel Hup w'. subst w'.
  unfold exec, handleStatusUpdate, db.bookings_update. run_handler.
  rewrite Hsel, Hup. simpl.
  assert (Hnotify : forall (m : Eff State unit) (w0 : World State),
            (m = ret tt \/ exists n, m = sendNotifications sel n) ->
            exists w1, m w0 = (Returned tt, w1)
                       /\ page w1 = page w0
                       /\ toasts (env w1) = toasts (env w0)
                       /\ visited (env w1) = visited (env w0)).
  { intros m w0 [ -> | (n & ->) ].
    - exists w0. repeat split.
    - unfold sendNotifications. run_handler. eexists. repeat split. }
  match goal with
  | |- context [ ?m {| page := ?p; env := ?e |} ] =>
      match type of m with
      | Eff State unit =>
          destruct (Hnotify m {| page := p; env := e |})
            as (w1 & Hrun1 & Hp1 & Ht1 & Hv1);
          [ destruct type; case_decide; eauto | rewrite Hrun1 ]
      end
  end.
  match goal with
  | |- context [ loadBookings ?w0 ] =>
      destruct (BookingLoading.BookingManagement_reload_frame w0)
        as (w2 & Hrun2 & Hpr & Hse & Hdo & _ & Hv2 & _ & Hto);
      rewrite Hrun2
  end.
  simpl. simpl in Hpr, Hse, Hdo, Hv2, Hto.
  rewrite Hpr, Hse, Hdo, Hp1, Hv2, Hv1. simpl.
  split; [ reflexivity | ]. split; [ reflexivity | ].
  split.
  { intros Hin. apply elem_of_difference in Hin. destruct Hin as (_ & Hn).
    apply Hn. now apply elem_of_singleton. }
  split; [ exact Hsel | ].
  split; [ | reflexivity ].
  destruct Hto as [ -> | -> ]; rewrite Ht1; simpl;
    rewrite ?in_app_iff; simpl; tauto.
Qed.

Lemma status_update_accepted_witness :
  dialogOpen (page (exec (@handleStatusUpdate utc_runtime return_)
                         StatusUpdates.returning_world)) = false
  /\ toasts (env (exec (@handleStatusUpdate utc_runtime return_)
                     StatusUpdates.returning_world)) =
       [status_success_toast return_].
Proof.
  destruct (@status_update_accepted utc_runtime return_ StatusUpdates.returning_world
              (mkBookingWithBike BookingPage.demo_booking null) eq_refl eq_refl)
    as (_ & Hclosed & _).
  split; [ exact Hclosed | vm_compute; reflexivity ].
Defined.

End BookingAdmin.

(** ** BrowseBikes.tsx: what the listing keeps, its order, the type menu *)

From Stdlib Require Import Sorted.

Module Catalog.
Import BrowseBikes.

Definition setSelectedType (v : string) (s : State) : State :=
  mkState (bikes s) (filteredBikes s) (loading s) (searchTerm s) v (sortBy s).

(** [set.add (x)]: a new element goes last, a known one changes nothing. *)
Definition set_add (acc : list string) (x : string) : list string :=
  if existsb (fun y => bool_decide (y = x)) acc then acc else acc ++ [x].

(** [[...new Set (xs)]] *)
Definition spread_set (xs : list string) : list string :=
  List.fold_left set_add xs [].

(** [const bikeTypes = [...new Set (bikes.map (bike => bike.type))]] *)
Definition bikeTypes (s : State) : list string :=
  spread_set (List.map type (bikes s)).

(** The values of the type menu: "all", then each type in lower case. *)
Definition type_menu (s : State) : list string :=
  "all" :: List.map toLowerCase (bikeTypes s).

(** The bikes that pass the filters that are active. *)
Definition kept (s : State) (b : Bike) : bool :=
  (bool_decide (searchTerm s = "") || matches_search (searchTerm s) b)
  && (bool_decide (selectedType s = "all") || matches_type (selectedType s) b).

Lemma lower_ascii_idem (c : ascii) : lower_ascii (lower_ascii c) = lower_ascii c.
Proof.
  destruct c as [ [] [] [] [] [] [] [] [] ]; vm_compute; reflexivity.
Qed.

Lemma toLowerCase_idem (s : string) : toLowerCase (toLowerCase s) = toLowerCase s.
Proof.
  induction s as [ | c s IH ]; simpl; [ reflexivity | ].
  now rewrite lower_ascii_idem, IH.
Qed.

Lemma existsb_eq_In (x : string) (acc : list string) :
  existsb (fun y => bool_decide (y = x)) acc = true <-> In x acc.
Proof.
  rewrite existsb_exists. split.
  - intros (y & Hin & Hy). apply bool_decide_eq_true_1 in Hy. now subst y.
  - intros Hin. exists x. split; [ exact Hin | now apply bool_decide_eq_true_2 ].
Qed.

Lemma fold_set_add (xs acc : list string) :
  NoDup acc ->
  NoDup (List.fold_left set_add xs acc)
  /\ (forall t, In t (List.fold_left set_add xs acc) <-> In t acc \/ In t xs).
Proof.
  revert acc. induction xs as [ | x xs IH ]; intros acc Hnd; simpl.
  - split; [ exact Hnd | intros t; tauto ].
  - unfold set_add at 2 4.
    destruct (existsb (fun y => bool_decide (y = x)) acc) eqn:Hex.
    + apply existsb_eq_In in Hex. destruct (IH acc Hnd) as (Hnd' & Hin').
      split; [ exact Hnd' | ]. intros t. rewrite Hin'.
      split; [ tauto | ]. intros [ H | [ <- | H ] ]; auto.
    + assert (Hfresh : ~ In x acc).
      { intros Hin. apply existsb_eq_In in Hin. congruence. }
      assert (Hnd1 : NoDup (acc ++ [x])).
      { apply NoDup_app. split; [ exact Hnd | split ].
        - intros y Hy Hx. apply list_elem_of_In in Hy, Hx.
          destruct Hx as [ <- | [] ]. contradiction.
        - apply NoDup_singleton. }
      destruct (IH (acc ++ [x]) Hnd1) as (Hnd' & Hin').
      split; [ exact Hnd' | ]. intros t. rewrite Hin', in_app_iff. simpl. tauto.
Qed.

Lemma In_bikeTypes (s : State) (t : string) :
  In t (bikeTypes s) <-> exists b, In b (bikes s) /\ type b = t.
Proof.
  unfold bikeTypes, spread_set.
  destruct (fold_set_add (List.map type (bikes s)) [] NoDup_nil_2) as (_ & Hin).
  rewrite Hin, in_map_iff. simpl. split.
  - intros [ [] | (b & Hb & Hin') ]. exists b. auto.
  - intros (b & Hin' & Hb). right. exists b. auto.
Qed.

(** X17. The type menu is built from the loaded bikes: a type is offered
    exactly when some loaded bike has it, and no type is offered twice. *)
Theorem bikeTypes_each_type_once (s : State) :
  NoDup (bikeTypes s)
  /\ (forall t, In t (bikeTypes s) <-> exists b, In b (bikes s) /\ type b = t)
  /\ (bikes s = [] -> type_menu s = ["all"]).
Proof.
  split; [ | split ].
  - unfold bikeTypes, spread_set.
    apply (fold_set_add (List.map type (bikes s)) [] NoDup_nil_2).
  - intros t. apply In_bikeTypes.
  - intros Hempty. unfold type_menu, bikeTypes, spread_set. now rewrite Hempty.
Qed.

Section WithCollation.
Context {co : Collation}.

Lemma insert_sorted_perm (cmp : Bike -> Bike -> Z) (x : Bike) (l : list Bike) :
  Permutation (insert_sorted cmp x l) (x :: l).
Proof.
  induction l as [ | y l IH ]; simpl; [ reflexivity | ].
  destruct (cmp x y <=? 0); [ reflexivity | ].
  rewrite IH. apply perm_swap.
Qed.

Lemma sort_perm (cmp : Bike -> Bike -> Z) (l : list Bike) :
  Permutation (sort cmp l) l.
Proof.
  unfold sort. induction l as [ | x l IH ]; simpl; [ reflexivity | ].
  rewrite insert_sorted_perm. now constructor.
Qed.

Lemma filter_filter_kept (s : State) :
  (let filtered := bikes s in
   let filtered := if negb (bool_decide (searchTerm s = ""))
                   then List.filter (matches_search (searchTerm s)) filtered
                   else filtered in
   if negb (bool_decide (selectedType s = "all"))
   then List.filter (matches_type (selectedType s)) filtered
   else filtered) = List.filter (kept s) (bikes s).
Proof.
  unfold kept. simpl.
  destruct (bool_decide (searchTerm s = "")), (bool_decide (selectedType s = "all"));
    simpl; induction (bikes s) as [ | b l IH ]; simpl; try reflexivity.
  all: try destruct (matches_search (searchTerm s) b); simpl;
    try destruct (matches_type (selectedType s) b); simpl;
    now rewrite <- IH.
Qed.

(** X18. The listing is a rearrangement of the loaded bikes that pass the
    active filters: none is lost, none is repeated, so the count shown is
    their number.  With no filter active the [bikes] array itself is the one
    that gets sorted; with a filter active [bikes] keeps its order. *)
Theorem listing_rearranges_matches (s : State) :
  let s' := filterEffect s in
  Permutation (filteredBikes s') (List.filter (kept s) (bikes s))
  /\ length (filteredBikes s') = length (List.filter (kept s) (bikes s))
  /\ (length (filteredBikes s') <= length (bikes s))%nat
  /\ (searchTerm s = "" -> selectedType s = "all" ->
      bikes s' = filteredBikes s' /\ Permutation (bikes s') (bikes s))
  /\ (searchTerm s <> "" \/ selectedType s <> "all" -> bikes s' = bikes s).
Proof.
  intros s'. subst s'.
  assert (Hperm : Permutation (filteredBikes (filterEffect s))
                              (List.filter (kept s) (bikes s))).
  { unfold filterEffect. simpl. rewrite <- filter_filter_kept. apply sort_perm. }
  split; [ exact Hperm | ].
  split; [ now apply Permutation_length | ].
  split; [ rewrite (Permutation_length Hperm); apply List.filter_length_le | ].
  split.
  - intros Ht Hy. unfold filterEffect. simpl.
    rewrite (bool_decide_eq_true_2 _ Ht), (bool_decide_eq_true_2 _ Hy). simpl.
    split; [ reflexivity | apply sort_perm ].
  - intros Hactive. unfold filterEffect. simpl.
    destruct Hactive as [ Ht | Hy ].
    + now rewrite (bool_decide_eq_false_2 _ Ht).
    + rewrite (bool_decide_eq_false_2 _ Hy). simpl. now rewrite orb_true_r.
Qed.

Lemma insert_sorted_Sorted (R : Bike -> Bike -> Prop) (cmp : Bike -> Bike -> Z)
    (x : Bike) (l : list Bike) :
  (forall a b, (cmp a b <=? 0) = true -> R a b) ->
  (forall a b, (cmp a b <=? 0) = false -> R b a) ->
  Sorted R l -> Sorted R (insert_sorted cmp x l).
Proof.
  intros Hle Hgt Hs. induction Hs as [ | y l Hs IH Hhd ]; simpl.
  - repeat constructor.
  - destruct (cmp x y <=? 0) eqn:Hc.
    + constructor; [ now constructor | constructor; now apply Hle ].
    + constructor; [ exact IH | ].
      destruct l as [ | z l ]; simpl.
      * constructor. now apply Hgt.
      * destruct (cmp x z <=? 0); constructor; [ now apply Hgt | ].
        now inversion Hhd.
Qed.

Lemma sort_Sorted (R : Bike -> Bike -> Prop) (cmp : Bike -> Bike -> Z) (l : list Bike) :
  (forall a b, (cmp a b <=? 0) = true -> R a b) ->
  (forall a b, (cmp a b <=? 0) = false -> R b a) ->
  Sorted R (sort cmp l).
Proof.
  intros Hle Hgt. unfold sort. induction l as [ | x l IH ]; simpl.
  - constructor.
  - now apply insert_sorted_Sorted.
Qed.

(** X19. Sorted by "price-low" the listing runs from cheaper to dearer
    hourly rates, every earlier bike costing at most what every later one
    costs; sorted by "price-high" it runs the other way. *)
Theorem listing_ordered_by_price (s : State) :
  (sortBy s = "price-low" ->
   StronglySorted (fun a b => hourlyRate a <= hourlyRate b)
                  (filteredBikes (filterEffect s)))
  /\ (sortBy s = "price-high" ->
      StronglySorted (fun a b => hourlyRate b <= hourlyRate a)
                     (filteredBikes (filterEffect s))).
Proof.
  split; intros Hby; apply Sorted_StronglySorted;
    try (intros a b c; lia);
    unfold filterEffect; simpl; apply sort_Sorted;
    intros a b Hc; unfold compareBikes in Hc; rewrite Hby in Hc; simpl in Hc; lia.
Qed.

(** X20. Every type the menu offers leads somewhere: with the search box
    empty, choosing the menu value of an offered type lists at least one bike,
    and unless that value is "all" every listed bike has that type up to
    letter case. *)
Theorem offered_type_lists_a_bike (s : State) (t : string) :
  In t (bikeTypes s) ->
  searchTerm s = "" ->
  let s' := filterEffect (setSelectedType (toLowerCase t) s) in
  filteredBikes s' <> []
  /\ (toLowerCase t <> "all" ->
      forall b, In b (filteredBikes s') -> toLowerCase (type b) = toLowerCase t).
Proof.
  intros Ht Hterm s'. subst s'.
  apply In_bikeTypes in Ht. destruct Ht as (b & Hb & Htype).
  split.
  - assert (Hin : In b (filteredBikes (filterEffect (setSelectedType (toLowerCase t) s)))).
    { apply filterEffect_keeps. simpl. split; [ exact Hb | split; [ now left | ] ].
      destruct (decide (toLowerCase t = "all")) as [ Hall | Hall ]; [ now left | right ].
      unfold matches_type. apply bool_decide_eq_true_2.
      now rewrite toLowerCase_idem, Htype. }
    intros Hnil. rewrite Hnil in Hin. contradiction.
  - intros Hall b' Hin. apply filterEffect_keeps in Hin. simpl in Hin.
    destruct Hin as (_ & _ & [ Hsel | Hmatch ]); [ contradiction | ].
    unfold matches_type in Hmatch. apply bool_decide_eq_true_1 in Hmatch.
    now rewrite toLowerCase_idem in Hmatch.
Qed.

End WithCollation.

Definition showroom : State :=
  mkState [roadster; BookingPage.trailblazer] [] false "" "all" "price-low".

Lemma listing_ordered_by_price_witness :
  List.map hourlyRate (filteredBikes (@filterEffect code_order showroom)) = [15; 20]
  /\ StronglySorted (fun a b => hourlyRate a <= hourlyRate b)
       (filteredBikes (@filterEffect code_order showroom)).
Proof.
  destruct (@listing_ordered_by_price code_order showroom) as (Hlow & _).
  split; [ vm_compute; reflexivity | exact (Hlow eq_refl) ].
Defined.

Lemma offered_type_lists_a_bike_witness :
  bikeTypes showroom = ["Road"; "Mountain"]
  /\ filteredBikes (@filterEffect code_order (setSelectedType "mountain" showroom)) <> [].
Proof.
  assert (Hin : In "Mountain" (bikeTypes showroom)) by (vm_compute; auto).
  destruct (@offered_type_lists_a_bike code_order showroom "Mountain" Hin eq_refl)
    as (Hsome & _).
  split; [ vm_compute; reflexivity | exact Hsome ].
Defined.

End Catalog.

(** ** AdminDashboard.tsx: failed loads, the counters, and what the other
    pages do to the revenue *)

Module Dashboard.
Import AdminDashboard.




Section WithRuntime.
Context {rt : DateRuntime}.

(** The ways a load of the dashboard can fail at the store. *)
Definition load_refused (e : Env) : Prop :=
  outage e (length (calls e)) = true
  \/ (outage e (length (calls e)) = false /\ outage e (S (length (calls e))) = true).

(** X21. The dashboard figures are all-or-nothing: when the listing of the
    bikes or of the bookings is refused, every figure keeps the value it had
    (zero on a first load), loading ends, the error is logged and no toast is
    shown. *)
Theorem stats_all_or_nothing (w : World State) :
  load_refused (env w) ->
  let w' := exec loadDashboardStats w in
  fst (loadDashboardStats w) = Returned tt
  /\ stats (page w') = stats (page w)
  /\ loading (page w') = false
  /\ console (env w') = console (env w) ++ ["Error loading dashboard stats:"]
  /\ toasts (env w') = toasts (env w).
Proof.
  intros Href w'. subst w'.
  unfold exec, loadDashboardStats, db.bikes_list, db.bookings_list. run_handler.
  destruct Href as [ Hout | (Hup & Hout) ].
  - rewrite Hout. simpl. repeat split.
  - rewrite Hup. simpl. rewrite length_app, Nat.add_1_r, Hout. simpl. repeat split.
Qed.

(** X22. With the store reachable the counters are consistent: pending
    bookings are among all bookings and available bikes among all bikes, the
    bookings that earn and the pending ones together do not exceed all
    bookings, and no counter is negative. *)
Theorem counters_are_consistent (w : World State) :
  (forall k, outage (env w) k = false) ->
  let shown := stats (page (exec loadDashboardStats w)) in
  0 <= pendingBookings shown <= totalBookings shown
  /\ 0 <= availableBikes shown <= totalBikes shown
  /\ pendingBookings shown + Z.of_nat (length (List.filter earns (bookings (env w))))
     <= totalBookings shown
  /\ totalBikes shown = Z.of_nat (length (bikes (env w)))
  /\ totalBookings shown = Z.of_nat (length (bookings (env w))).
Proof.
  intros Hup shown. subst shown. rewrite (loadDashboardStats_online w Hup). simpl.
  assert (Hdisjoint : forall l : list Booking,
    (length (List.filter (fun b => bool_decide (status b = "pending")) l)
     + length (List.filter earns l) <= length l)%nat).
  { induction l as [ | b l IH ]; simpl; [ lia | ].
    unfold earns at 1. repeat case_bool_decide; simpl; try congruence; lia. }
  specialize (Hdisjoint (bookings (env w))).
  pose proof (List.filter_length_le (fun b => 0 <? isAvailable b) (bikes (env w))).
  pose proof (List.filter_length_le (fun b => bool_decide (status b = "pending"))
                (bookings (env w))).
  repeat split; lia.
Qed.





End WithRuntime.

Lemma stats_all_or_nothing_witness :
  stats (page (exec (@loadDashboardStats utc_runtime)
                 (mkWorld initial AdminAccess.flaky_env))) = mkStats 0 0 0 0 0 0.
Proof.
  assert (Href : load_refused (env (mkWorld initial AdminAccess.flaky_env)))
    by (right; split; reflexivity).
  destruct (@stats_all_or_nothing utc_runtime (mkWorld initial AdminAccess.flaky_env) Href)
    as (_ & Hstats & _).
  exact Hstats.
Defined.

Lemma counters_are_consistent_witness :
  pendingBookings (stats (page (exec (@loadDashboardStats utc_runtime)
                     (mkWorld initial (BookingAdmin.desk_env false))))) = 1
  /\ totalBookings (stats (page (exec (@loadDashboardStats utc_runtime)
                      (mkWorld initial (BookingAdmin.desk_env false))))) = 2.
Proof.
  assert (Hup : forall k, outage (env (mkWorld initial (BookingAdmin.desk_env false))) k
                          = false) by reflexivity.
  destruct (@counters_are_consistent utc_runtime
              (mkWorld initial (BookingAdmin.desk_env false)) Hup)
    as (_ & _ & _ & _ & Htotal).
  split; [ vm_compute; reflexivity | exact Htotal ].
Defined.



End Dashboard.
